(** * Swing-trading decision core: a shallow embedding in Rocq

    This development embeds the decision logic of the stock swing-trading
    analyser:
    - [TechnicalAnalyzer.generate_signals]   (src/analysis/technical_analyzer.py)
    - [FundamentalAnalyzer.analyze_fundamentals] (src/analysis/fundamental_analyzer.py)
    - [SentimentAnalyzer.analyze_news_collection] (src/analysis/sentiment_analyzer.py)
    - [TradingPredictor.generate_recommendation] and its helpers
      (src/prediction/trading_predictor.py)

    Modelling choices.
    - Python floats and ints are modelled as exact rationals [Q]; NaN and
      infinities are outside the model.  Equalities between computed
      rationals are stated with [Qeq] ([==]).
    - Python values read out of the loosely-typed dictionaries are the
      inductive [pyval]; operations on them that Python rejects raise a
      [TypeError] (or [ZeroDivisionError]) in the error monad.
    - Python exceptions are the [Raise] constructor of [result]; code that
      mutates a dictionary and may raise halfway is a state monad whose
      state survives an exception, as the mutated dictionary does.
    - A pandas [DataFrame] of price history is the list of its [Close]
      column. *)

From Stdlib Require Import QArith Qabs Qround Qminmax Lqa String List Bool ZArith Lia.
Import ListNotations.

Open Scope Q_scope.

(** ** Python values and exceptions *)

Set Warnings "-register-all".

Inductive pyval : Type :=
| PNone
| PNum (q : Q)
| PStr (s : string)
| PList (l : list pyval)
| PDict (d : list (string * pyval)).

Record exc : Type := mk_exc { exc_type : string; exc_msg : string }.

Inductive result (A : Type) : Type :=
| Ok (a : A)
| Raise (e : exc).
Arguments Ok {A} a.
Arguments Raise {A} e.

Definition bind {A B} (m : result A) (k : A -> result B) : result B :=
  match m with
  | Ok a => k a
  | Raise e => Raise e
  end.

Notation "x <- m ;; k" := (bind m (fun x => k))
  (at level 61, m at next level, right associativity).

Definition type_error {A} (op : string) : result A :=
  Raise (mk_exc "TypeError" ("unsupported operand type(s) for " ++ op)%string).

(** [dict.get(key, default)]; a non-dictionary has no [get] attribute. *)
Fixpoint assoc_get (d : list (string * pyval)) (k : string) : option pyval :=
  match d with
  | [] => None
  | (k', v) :: d' => if String.eqb k k' then Some v else assoc_get d' k
  end.

Definition py_get (o : pyval) (k : string) (default : pyval) : result pyval :=
  match o with
  | PDict d => match assoc_get d k with Some v => Ok v | None => Ok default end
  | _ => Raise (mk_exc "AttributeError" "object has no attribute 'get'")
  end.

(** Boolean comparisons on rationals. *)
Definition qle (a b : Q) : bool := Qle_bool a b.
Definition qlt (a b : Q) : bool := negb (Qle_bool b a).

(** [a < b]: numbers with numbers, strings with strings (code-point order,
    here the order of their characters); any other pair raises. *)
Definition py_lt (a b : pyval) : result bool :=
  match a, b with
  | PNum x, PNum y => Ok (qlt x y)
  | PStr x, PStr y => Ok (String.ltb x y)
  | _, _ => Raise (mk_exc "TypeError" "'<' not supported between these types")
  end.

(** [a > b] is [b < a]. *)
Definition py_gt (a b : pyval) : result bool := py_lt b a.

(** [a == "literal"] never raises. *)
Definition py_eq_str (a : pyval) (s : string) : bool :=
  match a with PStr x => String.eqb x s | _ => false end.

(** Truth value of a Python object. *)
Definition py_truthy (v : pyval) : bool :=
  match v with
  | PNone => false
  | PNum q => negb (Qeq_bool q 0)
  | PStr s => negb (String.eqb s EmptyString)
  | PList l => match l with [] => false | _ => true end
  | PDict d => match d with [] => false | _ => true end
  end.

Definition py_add (a b : pyval) : result pyval :=
  match a, b with PNum x, PNum y => Ok (PNum (x + y)) | _, _ => type_error "+" end.
Definition py_sub (a b : pyval) : result pyval :=
  match a, b with PNum x, PNum y => Ok (PNum (x - y)) | _, _ => type_error "-" end.
(** Products of non-numbers raise.  (Python repeats a string or list times
    an int; every such product in the modelled code is afterwards
    multiplied by a float, which raises, so the model raises at once.) *)
Definition py_mul (a b : pyval) : result pyval :=
  match a, b with PNum x, PNum y => Ok (PNum (x * y)) | _, _ => type_error "*" end.
Definition py_div (a b : pyval) : result pyval :=
  match a, b with
  | PNum x, PNum y =>
      if Qeq_bool y 0 then Raise (mk_exc "ZeroDivisionError" "division by zero")
      else Ok (PNum (x / y))
  | _, _ => type_error "/"
  end.
Definition py_abs (a : pyval) : result pyval :=
  match a with PNum x => Ok (PNum (Qabs x)) | _ => Raise (mk_exc "TypeError" "bad operand type for abs()") end.

(** A numeric result as a rational. *)
Definition as_num (a : pyval) : result Q :=
  match a with PNum x => Ok x | _ => Raise (mk_exc "TypeError" "must be real number") end.

(** ** A state monad whose state survives exceptions

    Python code that mutates a dictionary and then raises keeps the
    mutations; [M S A] threads the dictionary (and the locals) through. *)

Definition M (S A : Type) : Type := S -> result A * S.

Definition mret {S A} (a : A) : M S A := fun s => (Ok a, s).
Definition mbind {S A B} (m : M S A) (k : A -> M S B) : M S B :=
  fun s => match m s with
           | (Ok a, s') => k a s'
           | (Raise e, s') => (Raise e, s')
           end.
Definition lift {S A} (r : result A) : M S A := fun s => (r, s).
Definition modify {S} (f : S -> S) : M S unit := fun s => (Ok tt, f s).
Definition gets {S A} (f : S -> A) : M S A := fun s => (Ok (f s), s).

(** [try: m except Exception as e: h e] *)
Definition try_except {S A} (m : M S A) (h : exc -> M S A) : M S A :=
  fun s => match m s with
           | (Ok a, s') => (Ok a, s')
           | (Raise e, s') => h e s'
           end.

Notation "x <-- m ;;; k" := (mbind m (fun x => k))
  (at level 61, m at next level, right associativity).
Notation "m ;;; k" := (mbind m (fun _ : unit => k))
  (at level 61, right associativity).

(** ** Technical Signal Summarizer: [TechnicalAnalyzer.generate_signals] *)

Module Technical.

Record Signals : Type := mk_signals {
  buy_signals : nat;
  sell_signals : nat;
  neutral_signals : nat;
  signal_strength : Q;
  reasoning : list string
}.

(** The [signals] dictionary as initialised before the [try]. *)
Definition signals0 : Signals := mk_signals 0 0 0 0 [].

Definition add_buy (msg : string) : M Signals unit :=
  modify (fun s => mk_signals (S (buy_signals s)) (sell_signals s)
                    (neutral_signals s) (signal_strength s) (reasoning s ++ [msg])).
Definition add_sell (msg : string) : M Signals unit :=
  modify (fun s => mk_signals (buy_signals s) (S (sell_signals s))
                    (neutral_signals s) (signal_strength s) (reasoning s ++ [msg])).
Definition add_neutral : M Signals unit :=
  modify (fun s => mk_signals (buy_signals s) (sell_signals s)
                    (S (neutral_signals s)) (signal_strength s) (reasoning s)).
Definition add_reason (msg : string) : M Signals unit :=
  modify (fun s => mk_signals (buy_signals s) (sell_signals s)
                    (neutral_signals s) (signal_strength s) (reasoning s ++ [msg])).

(** [((buy - sell) / total) * 100] *)
Definition strength_of (buy sell total : nat) : Q :=
  (inject_Z (Z.of_nat buy - Z.of_nat sell) / inject_Z (Z.of_nat total)) * 100.

Definition set_strength : M Signals unit :=
  modify (fun s =>
    let total := (buy_signals s + sell_signals s + neutral_signals s)%nat in
    if (0 <? total)%nat
    then mk_signals (buy_signals s) (sell_signals s) (neutral_signals s)
           (strength_of (buy_signals s) (sell_signals s) total) (reasoning s)
    else s).

(** The tallies of the [try] block, up to the signal-strength step. *)
Definition generate_signals_tally (indicators : pyval) : M Signals unit :=
  rsi <-- lift (py_get indicators "rsi" (PNum 50)) ;;;
  macd_diff <-- lift (py_get indicators "macd_diff" (PNum 0)) ;;;
  trend <-- lift (py_get indicators "trend" (PStr "NEUTRAL")) ;;;
  price_vs_sma20 <-- lift (py_get indicators "price_vs_sma20" (PNum 0)) ;;;
  volume_ratio <-- lift (py_get indicators "volume_ratio" (PNum 1)) ;;;
  current_price <-- lift (py_get indicators "current_price" (PNum 0)) ;;;
  bb_upper <-- lift (py_get indicators "bb_upper" (PNum 0)) ;;;
  bb_lower <-- lift (py_get indicators "bb_lower" (PNum 0)) ;;;
  (* RSI signals *)
  c1 <-- lift (py_lt rsi (PNum 30)) ;;;
  (if c1 then add_buy "RSI indicates oversold condition"
   else c2 <-- lift (py_gt rsi (PNum 70)) ;;;
        if c2 then add_sell "RSI indicates overbought condition"
        else add_neutral) ;;;
  (* MACD signals *)
  c3 <-- lift (py_gt macd_diff (PNum 0)) ;;;
  (if c3 then add_buy "MACD shows bullish momentum"
   else c4 <-- lift (py_lt macd_diff (PNum 0)) ;;;
        if c4 then add_sell "MACD shows bearish momentum" else mret tt) ;;;
  (* Trend signals *)
  (if py_eq_str trend "UPTREND" then add_buy "Price is in uptrend"
   else if py_eq_str trend "DOWNTREND" then add_sell "Price is in downtrend"
   else mret tt) ;;;
  (* Price vs SMA signals *)
  c5 <-- lift (py_gt price_vs_sma20 (PNum 2)) ;;;
  (if c5 then add_buy "Price is above 20-day SMA"
   else c6 <-- lift (py_lt price_vs_sma20 (PNum (-2))) ;;;
        if c6 then add_sell "Price is below 20-day SMA" else mret tt) ;;;
  (* Volume confirmation *)
  c7 <-- lift (py_gt volume_ratio (PNum 1.5)) ;;;
  (if c7 then add_reason "High volume confirms price movement" else mret tt) ;;;
  (* Bollinger Bands *)
  c8 <-- lift (py_lt current_price bb_lower) ;;;
  (if c8 then add_buy "Price near lower Bollinger Band (potential bounce)"
   else c9 <-- lift (py_gt current_price bb_upper) ;;;
        if c9 then add_sell "Price near upper Bollinger Band (potential reversal)"
        else mret tt).

(** The body of the [try] block. *)
Definition generate_signals_body (indicators : pyval) : M Signals unit :=
  generate_signals_tally indicators ;;;
  (* Calculate signal strength (-100 to +100) *)
  set_strength.

(** [generate_signals]: the exception handler only logs, and the partially
    updated [signals] dictionary is returned. *)
Definition generate_signals (indicators : pyval) : Signals :=
  snd (try_except (generate_signals_body indicators) (fun _ => mret tt) signals0).

End Technical.

(** ** Fundamental Scorer: [FundamentalAnalyzer.analyze_fundamentals] *)

Module Fundamental.

(** The ratios read with [fundamental_data.get(key)]: a missing key and a
    [None] value both read as [None].  The ratio mapping holds floats or
    [None] (spec, section 6). *)
Record FundamentalData : Type := mk_fdata {
  pe_ratio : option Q;
  pb_ratio : option Q;
  debt_to_equity : option Q;
  roe : option Q;
  roa : option Q;
  profit_margin : option Q;
  revenue_growth : option Q;
  earnings_growth : option Q;
  current_ratio : option Q;
  beta : option Q;
  quick_ratio : option Q;
  peg_ratio : option Q;
  operating_margin : option Q;
  dividend_yield : option Q
}.

Inductive Status : Type := GOOD | CAUTION.

Inductive Assessment : Type := STRONG | MODERATE | WEAK | NEUTRAL | ERROR.

(** The [analysis] dictionary.  The [strengths] and [weaknesses] text lists
    are not modelled: they neither raise nor feed the score. *)
Record Analysis : Type := mk_analysis {
  score : Q;
  max_score : Q;
  metrics : list (string * (Q * Status));
  overall_assessment : Assessment
}.

Definition analysis0 : Analysis := mk_analysis 0 100 [] NEUTRAL.

(** The [analysis] dictionary with the locals [score] (here [acc_score]),
    [max_possible] and [roe_pct] ([None] while unbound). *)
Record FState : Type := mk_fstate {
  analysis : Analysis;
  acc_score : Q;
  max_possible : Q;
  roe_pct : option Q
}.

Definition fstate0 : FState := mk_fstate analysis0 0 0 None.

Definition set_analysis (a : Analysis) (st : FState) : FState :=
  mk_fstate a (acc_score st) (max_possible st) (roe_pct st).
Definition add_max (w : Q) (st : FState) : FState :=
  mk_fstate (analysis st) (acc_score st) (max_possible st + w) (roe_pct st).
Definition add_score (p : Q) (st : FState) : FState :=
  mk_fstate (analysis st) (acc_score st + p) (max_possible st) (roe_pct st).
Definition set_roe_pct (r : Q) (st : FState) : FState :=
  mk_fstate (analysis st) (acc_score st) (max_possible st) (Some r).

(** [analysis['metrics'][name] = {'value': v, 'status': s}] *)
Definition record_metric (name : string) (v : Q) (s : Status) : M FState unit :=
  modify (fun st =>
    let a := analysis st in
    set_analysis (mk_analysis (score a) (max_score a)
                    (metrics a ++ [(name, (v, s))]) (overall_assessment a)) st).

(** Reading the local [roe_pct]: unbound unless the ROE block ran. *)
Definition read_roe_pct : M FState Q :=
  fun st => match roe_pct st with
            | Some r => (Ok r, st)
            | None => (Raise (mk_exc "UnboundLocalError"
                               "local variable 'roe_pct' referenced before assignment"), st)
            end.

Definition is_good (b : bool) : Status := if b then GOOD else CAUTION.

(** The banded point tables, one per metric, as the [if]/[elif] chains. *)
Definition pe_points (pe : Q) : Q :=
  if qle 10 pe && qle pe 25 then 15
  else if qlt pe 10 then 10
  else if qlt 25 pe && qle pe 35 then 8
  else 3.
Definition pb_points (pb : Q) : Q :=
  if qle 1 pb && qle pb 3 then 10
  else if qlt pb 1 then 8
  else if qlt 3 pb && qle pb 5 then 5
  else 2.
Definition de_points (de : Q) : Q :=
  if qlt de 1 then 15
  else if qle 1 de && qlt de 2 then 12
  else if qle 2 de && qlt de 3 then 7
  else 2.
Definition roe_points (roe_pct : Q) : Q :=
  if qlt 15 roe_pct then 15
  else if qlt 10 roe_pct then 12
  else if qlt 5 roe_pct then 8
  else 3.
Definition roa_points (roa_pct : Q) : Q :=
  if qlt 5 roa_pct then 10
  else if qlt 3 roa_pct then 8
  else 4.
Definition margin_points (margin_pct : Q) : Q :=
  if qlt 15 margin_pct then 10
  else if qlt 10 margin_pct then 8
  else if qlt 5 margin_pct then 5
  else 2.
Definition revenue_points (growth_pct : Q) : Q :=
  if qlt 15 growth_pct then 10
  else if qlt 10 growth_pct then 8
  else if qlt 5 growth_pct then 5
  else 2.
Definition earnings_points (growth_pct : Q) : Q :=
  if qlt 20 growth_pct then 10
  else if qlt 10 growth_pct then 8
  else if qlt 5 growth_pct then 5
  else 2.
Definition current_points (cr : Q) : Q :=
  if qlt 2 cr then 5 else if qlt 1 cr then 4 else 1.
Definition quick_points (qr : Q) : Q :=
  if qlt 1.5 qr then 5 else if qlt 1 qr then 4 else 2.
Definition peg_points (peg : Q) : Q :=
  if qlt 0 peg && qlt peg 1 then 5
  else if qle 1 peg && qle peg 2 then 4
  else if qlt 2 peg then 2
  else 1.
Definition op_margin_points (margin_pct : Q) : Q :=
  if qlt 20 margin_pct then 5
  else if qlt 15 margin_pct then 4
  else if qlt 10 margin_pct then 3
  else 1.
Definition yield_points (yield_pct : Q) : Q :=
  if qlt 3 yield_pct then 5
  else if qlt 1.5 yield_pct then 4
  else if qlt 0 yield_pct then 2
  else 0.
Definition beta_points (b : Q) : Q :=
  if qle 0.8 b && qle b 1.2 then 5
  else if qlt b 0.8 then 4
  else if qlt 1.5 b then 2
  else 3.

(** One metric block [if x is not None: max_possible += w; score += ...;
    analysis['metrics'][name] = ...], the recorded value and status being
    functions of the raw ratio. *)
Definition metric_block (o : option Q) (w : Q) (points : Q -> Q) (name : string)
    (value : Q -> Q) (status : Q -> Status) : M FState unit :=
  match o with
  | None => mret tt
  | Some x =>
      modify (add_max w) ;;;
      modify (add_score (points x)) ;;;
      record_metric name (value x) (status x)
  end.

(** The ROE block also binds the local [roe_pct]. *)
Definition roe_block (o : option Q) : M FState unit :=
  match o with
  | None => mret tt
  | Some r =>
      modify (set_roe_pct (r * 100)) ;;;
      metric_block (Some r) 15 (fun r => roe_points (r * 100)) "roe"
        (fun r => r * 100) (fun r => is_good (qlt 10 (r * 100)))
  end.

(** The ROA block: its status reads [roe_pct], not [roa_pct] (source line
    125). *)
Definition roa_block (o : option Q) : M FState unit :=
  match o with
  | None => mret tt
  | Some a =>
      modify (add_max 10) ;;;
      modify (add_score (roa_points (a * 100))) ;;;
      rp <-- read_roe_pct ;;;
      record_metric "roa" (a * 100) (is_good (qlt 3 rp))
  end.

(** [yield_pct = dividend_yield * 100 if dividend_yield < 1 else dividend_yield] *)
Definition yield_pct_of (dy : Q) : Q := if qlt dy 1 then dy * 100 else dy.

Definition fundamental_blocks (d : FundamentalData) : M FState unit :=
  metric_block (pe_ratio d) 15 pe_points "pe_ratio" (fun x => x)
    (fun x => is_good (qle 10 x && qle x 25)) ;;;
  metric_block (pb_ratio d) 10 pb_points "pb_ratio" (fun x => x)
    (fun x => is_good (qle 1 x && qle x 3)) ;;;
  metric_block (debt_to_equity d) 15 de_points "debt_to_equity" (fun x => x)
    (fun x => is_good (qlt x 2)) ;;;
  roe_block (roe d) ;;;
  roa_block (roa d) ;;;
  metric_block (profit_margin d) 10 (fun x => margin_points (x * 100)) "profit_margin"
    (fun x => x * 100) (fun x => is_good (qlt 10 (x * 100))) ;;;
  metric_block (revenue_growth d) 10 (fun x => revenue_points (x * 100)) "revenue_growth"
    (fun x => x * 100) (fun x => is_good (qlt 10 (x * 100))) ;;;
  metric_block (earnings_growth d) 10 (fun x => earnings_points (x * 100)) "earnings_growth"
    (fun x => x * 100) (fun x => is_good (qlt 10 (x * 100))) ;;;
  metric_block (current_ratio d) 5 current_points "current_ratio" (fun x => x)
    (fun x => is_good (qlt 1 x)) ;;;
  metric_block (quick_ratio d) 5 quick_points "quick_ratio" (fun x => x)
    (fun x => is_good (qlt 1 x)) ;;;
  metric_block (peg_ratio d) 5 peg_points "peg_ratio" (fun x => x)
    (fun x => is_good (qlt 0 x && qlt x 2)) ;;;
  metric_block (operating_margin d) 5 (fun x => op_margin_points (x * 100)) "operating_margin"
    (fun x => x * 100) (fun x => is_good (qlt 15 (x * 100))) ;;;
  metric_block (dividend_yield d) 5 (fun x => yield_points (yield_pct_of x)) "dividend_yield"
    yield_pct_of (fun x => is_good (qlt 1.5 (yield_pct_of x))) ;;;
  metric_block (beta d) 5 beta_points "beta" (fun x => x)
    (fun x => is_good (qle 0.8 x && qle x 1.2)).

(** Final score and overall assessment. *)
Definition final_score (st : FState) : Q :=
  if qlt 0 (max_possible st) then (acc_score st / max_possible st) * 100 else 50.

Definition assessment_of (sc : Q) : Assessment :=
  if qle 70 sc then STRONG else if qle 50 sc then MODERATE else WEAK.

Definition finalize : M FState unit :=
  modify (fun st =>
    let a := analysis st in
    set_analysis (mk_analysis (final_score st) (max_score a) (metrics a)
                    (overall_assessment a)) st) ;;;
  modify (fun st =>
    let a := analysis st in
    set_analysis (mk_analysis (score a) (max_score a) (metrics a)
                    (assessment_of (score a))) st).

Definition analyze_fundamentals_body (d : FundamentalData) : M FState unit :=
  (* score = 0.0; max_possible = 0.0 *)
  modify (fun st => mk_fstate (analysis st) 0 0 (roe_pct st)) ;;;
  fundamental_blocks d ;;;
  finalize.

Definition set_error : M FState unit :=
  modify (fun st =>
    let a := analysis st in
    set_analysis (mk_analysis (score a) (max_score a) (metrics a) ERROR) st).

Definition analyze_fundamentals (d : FundamentalData) : Analysis :=
  analysis (snd (try_except (analyze_fundamentals_body d) (fun _ => set_error) fstate0)).

(** Vocabulary of the claims: the metrics present, with their point
    allocation (the "Max pts" column of the band table). *)
Definition present_fields (d : FundamentalData) : list (option Q * Q) :=
  [(pe_ratio d, 15); (pb_ratio d, 10); (debt_to_equity d, 15); (roe d, 15);
   (roa d, 10); (profit_margin d, 10); (revenue_growth d, 10);
   (earnings_growth d, 10); (current_ratio d, 5); (quick_ratio d, 5);
   (peg_ratio d, 5); (operating_margin d, 5); (dividend_yield d, 5); (beta d, 5)].

Definition opt_weight (o : option Q) (w : Q) : Q :=
  match o with Some _ => w | None => 0 end.

Definition present_weight (d : FundamentalData) : Q :=
  fold_right (fun ow acc => opt_weight (fst ow) (snd ow) + acc) 0 (present_fields d).

(** The band points a present metric earns (0 for an absent one), with the
    point table and the scaling of its block. *)
Definition opt_points (o : option Q) (points : Q -> Q) : Q :=
  match o with Some x => points x | None => 0 end.

(** The points accumulated over the fourteen blocks: the sum of the band
    points of the metrics present. *)
Definition present_points (d : FundamentalData) : Q :=
  opt_points (pe_ratio d) pe_points +
  opt_points (pb_ratio d) pb_points +
  opt_points (debt_to_equity d) de_points +
  opt_points (roe d) (fun r => roe_points (r * 100)) +
  opt_points (roa d) (fun a => roa_points (a * 100)) +
  opt_points (profit_margin d) (fun x => margin_points (x * 100)) +
  opt_points (revenue_growth d) (fun x => revenue_points (x * 100)) +
  opt_points (earnings_growth d) (fun x => earnings_points (x * 100)) +
  opt_points (current_ratio d) current_points +
  opt_points (quick_ratio d) quick_points +
  opt_points (peg_ratio d) peg_points +
  opt_points (operating_margin d) (fun x => op_margin_points (x * 100)) +
  opt_points (dividend_yield d) (fun x => yield_points (yield_pct_of x)) +
  opt_points (beta d) beta_points.

Definition metrics_present (d : FundamentalData) : nat :=
  length (filter (fun ow => match fst ow with Some _ => true | None => false end)
            (present_fields d)).

Definition no_data : FundamentalData :=
  mk_fdata None None None None None None None None None None None None None None.

End Fundamental.

(** ** Sentiment Aggregator: [SentimentAnalyzer.analyze_news_collection] *)

Module Sentiment.

Inductive Label : Type :=
  VERY_POSITIVE | POSITIVE | NEUTRAL | NEGATIVE | VERY_NEGATIVE.

(** [_classify_sentiment] *)
Definition classify_sentiment (sc : Q) : Label :=
  if qle 0.5 sc then VERY_POSITIVE
  else if qle 0.1 sc then POSITIVE
  else if qle (-0.1) sc then NEUTRAL
  else if qle (-0.5) sc then NEGATIVE
  else VERY_NEGATIVE.

(** An analysed article is represented by its [combined_score], the value
    [analyze_article] returns (the mean of the VADER and TextBlob scores, or
    [0.0] when the article analysis fails); the two polarity estimators are
    external libraries. *)
Abbreviation ArticleScore := Q (only parsing).

(** One category entry of [results]. *)
Record CatResult : Type := mk_cat {
  articles : list ArticleScore;
  average_sentiment : Q;
  count : nat;
  sentiment_label : option Label
}.

Definition cat0 : CatResult := mk_cat [] 0 0 None.

(** The [results] dictionary; the [sentiment_breakdown] counts, computed
    after the aggregation from the category averages, are not modelled. *)
Record Results : Type := mk_results {
  categories : list (string * CatResult);
  overall_sentiment : Q;
  overall_sentiment_label : option Label
}.

Definition results0 : Results :=
  mk_results [("global_news"%string, cat0); ("indian_market_news"%string, cat0);
                ("company_news"%string, cat0)]
    0 None.

Fixpoint cat_get (l : list (string * CatResult)) (k : string) : option CatResult :=
  match l with
  | [] => None
  | (k', v) :: l' => if String.eqb k k' then Some v else cat_get l' k
  end.

(** [results[k] = v]: replaces the entry of [k], or appends a new one. *)
Fixpoint cat_set (l : list (string * CatResult)) (k : string) (v : CatResult)
    : list (string * CatResult) :=
  match l with
  | [] => [(k, v)]
  | (k', v') :: l' => if String.eqb k k' then (k', v) :: l' else (k', v') :: cat_set l' k v
  end.

(** [sum(xs)]: left to right from [0]. *)
Definition py_sum (xs : list Q) : Q := fold_left Qplus xs 0.

(** The state of the loop: [results], [total_sentiment], [total_count]. *)
Record Acc : Type := mk_acc {
  acc_results : Results;
  total_sentiment : Q;
  total_count : nat
}.

(** One iteration of [for news_type, articles in news_dict.items()]. *)
Definition news_step (acc : Acc) (entry : string * list ArticleScore) : Acc :=
  let '(news_type, arts) := entry in
  match arts with
  | [] => acc   (* if not articles: continue *)
  | _ =>
      let type_sentiments := arts in
      let avg := py_sum type_sentiments / inject_Z (Z.of_nat (length type_sentiments)) in
      let r := acc_results acc in
      let r' := mk_results
                  (cat_set (categories r) news_type
                     (mk_cat arts avg (length arts) (Some (classify_sentiment avg))))
                  (overall_sentiment r) (overall_sentiment_label r) in
      mk_acc r'
        (total_sentiment acc + avg * inject_Z (Z.of_nat (length type_sentiments)))
        (total_count acc + length type_sentiments)
  end.

(** [analyze_news_collection]: the news collection is the list of the
    [news_dict] items in iteration order; a dictionary has distinct keys. *)
Definition analyze_news_collection (news_dict : list (string * list ArticleScore)) : Results :=
  let acc := fold_left news_step news_dict (mk_acc results0 0 0) in
  let r := acc_results acc in
  if (0 <? total_count acc)%nat
  then let o := total_sentiment acc / inject_Z (Z.of_nat (total_count acc)) in
       mk_results (categories r) o (Some (classify_sentiment o))
  else r.

(** Vocabulary of the claim: all article scores pooled, and their number. *)
Definition all_scores (news_dict : list (string * list ArticleScore)) : list Q :=
  flat_map snd news_dict.

Definition pooled_mean (news_dict : list (string * list ArticleScore)) : Q :=
  let n := length (all_scores news_dict) in
  if (0 <? n)%nat then py_sum (all_scores news_dict) / inject_Z (Z.of_nat n) else 0.

(** The count-weighted mean of the category means over the non-empty
    categories, [0] when there is none. *)
Definition nonempty_categories (news_dict : list (string * list ArticleScore))
    : list (string * list ArticleScore) :=
  filter (fun kv => match snd kv with [] => false | _ => true end) news_dict.

Definition simple_mean (xs : list Q) : Q :=
  py_sum xs / inject_Z (Z.of_nat (length xs)).

Definition count_weighted_mean (news_dict : list (string * list ArticleScore)) : Q :=
  let cats := nonempty_categories news_dict in
  let n := fold_right (fun kv acc => (length (snd kv) + acc)%nat) 0%nat cats in
  if (0 <? n)%nat
  then fold_right (fun kv acc => inject_Z (Z.of_nat (length (snd kv))) * simple_mean (snd kv) + acc)
         0 cats / inject_Z (Z.of_nat n)
  else 0.

End Sentiment.

(** ** Recommendation Synthesizer: [TradingPredictor] *)

Module Predictor.

Inductive Action : Type := BUY | SELL | HOLD.

Inductive Risk : Type := LOW | MEDIUM | HIGH.

(** Python's [round(x, n)] on an exact value: round half to even at [n]
    decimals. *)
Definition round_half_even (x : Q) : Z :=
  let f := Qfloor x in
  let r := x - inject_Z f in
  if qlt r (1 # 2) then f
  else if qlt (1 # 2) r then (f + 1)%Z
  else if Z.even f then f else (f + 1)%Z.

Definition py_round (x : Q) (n : nat) : Q :=
  inject_Z (round_half_even (x * inject_Z (10 ^ Z.of_nat n))) / inject_Z (10 ^ Z.of_nat n).

(** [min(a, b)] and [max(a, b)] return the first argument unless the second
    is strictly smaller (greater). *)
Definition py_min (a b : Q) : Q := if qlt b a then b else a.
Definition py_max (a b : Q) : Q := if qlt a b then b else a.

(** [pandas.Series.pct_change().dropna()] on the [Close] column: one return
    per consecutive pair of closes (prices are positive, so no [NaN]
    appears). *)
Fixpoint pct_change (closes : list Q) : list Q :=
  match closes with
  | c0 :: (c1 :: _) as rest => (c1 / c0 - 1) :: pct_change rest
  | _ => []
  end.

Definition mean (xs : list Q) : Q :=
  fold_left Qplus xs 0 / inject_Z (Z.of_nat (length xs)).

(** Sample variance ([ddof=1]); pandas' [std] is its square root, [NaN]
    below two observations. *)
Definition sample_variance (xs : list Q) : Q :=
  let m := mean xs in
  fold_left Qplus (map (fun x => (x - m) * (x - m)) xs) 0
    / inject_Z (Z.of_nat (length xs) - 1).

Section Synthesis.

(** The floating-point square root ([numpy.sqrt], the root in
    [Series.std]) and Python's [str] of a non-string value: outside the
    rational model, and taken as parameters. *)
Variable sqrt : Q -> Q.
Variable py_str : pyval -> string.

(** [returns.std()] as an optional value: [None] stands for pandas' [NaN]
    (fewer than two returns). *)
Definition returns_std (closes : list Q) : option Q :=
  let rs := pct_change closes in
  if (2 <=? length rs)%nat then Some (sqrt (sample_variance rs)) else None.

(** Weighted scoring system: technical 40%, fundamental 35%, sentiment 25%. *)
Definition weighted_blend (technical_signal_strength fundamental_score sentiment_score : pyval)
    : result Q :=
  sentiment_normalized <- py_mul sentiment_score (PNum 100) ;;
  t <- py_mul technical_signal_strength (PNum 0.40) ;;
  f0 <- py_sub fundamental_score (PNum 50) ;;
  f1 <- py_mul f0 (PNum 0.70) ;;
  f <- py_mul f1 (PNum 0.35) ;;
  s <- py_mul sentiment_normalized (PNum 0.25) ;;
  a <- py_add t f ;;
  ws <- py_add a s ;;
  as_num ws.

(** Determine recommendation. *)
Definition decide (weighted_score : Q) : Action * Q :=
  if qle 30 weighted_score then (BUY, py_min 95 (50 + Qabs weighted_score * 0.9))
  else if qle weighted_score (-30) then (SELL, py_min 95 (50 + Qabs weighted_score * 0.9))
  else (HOLD, py_max 30 (50 - Qabs weighted_score * 0.5)).

(** [_calculate_price_targets]; its handler recomputes
    [current_price * 1.05, current_price * 0.97], which raises again when
    [current_price] is not a number. *)
Definition price_targets_body (current_price : pyval) (weighted_score : Q)
    (time_horizon_weeks : pyval) (historical_data : list Q) : result (Q * Q) :=
  if negb (Nat.eqb (length historical_data) 0) && (20 <? length historical_data)%nat then
    let volatility :=
      match returns_std historical_data with
      | Some sd => sd * sqrt 252
      | None => 0   (* unreachable: more than 20 closes give 20 returns *)
      end in
    h <- py_div time_horizon_weeks (PNum 52) ;;
    hq <- as_num h ;;
    let price_change_pct := (weighted_score / 100) * volatility * hq * 2 in
    target_price <- py_mul current_price (PNum (1 + price_change_pct)) ;;
    stop_loss <- (if qlt 0 weighted_score then py_mul current_price (PNum 0.97)
                  else py_mul current_price (PNum 1.03)) ;;
    tp <- as_num target_price ;; sl <- as_num stop_loss ;; Ok (tp, sl)
  else
    ts <-
      (if qlt 0 weighted_score then
         tp <- py_mul current_price (PNum 1.05) ;; sl <- py_mul current_price (PNum 0.97) ;;
         Ok (tp, sl)
       else if qlt weighted_score 0 then
         tp <- py_mul current_price (PNum 0.95) ;; sl <- py_mul current_price (PNum 1.03) ;;
         Ok (tp, sl)
       else
         sl <- py_mul current_price (PNum 0.98) ;; Ok (current_price, sl)) ;;
    let '(target_price, stop_loss) := ts in
    tp <- as_num target_price ;; sl <- as_num stop_loss ;; Ok (tp, sl).

Definition calculate_price_targets (current_price : pyval) (weighted_score : Q)
    (time_horizon_weeks : pyval) (historical_data : list Q) : result (Q * Q) :=
  match price_targets_body current_price weighted_score time_horizon_weeks historical_data with
  | Ok r => Ok r
  | Raise _ =>
      tp <- py_mul current_price (PNum 1.05) ;;
      sl <- py_mul current_price (PNum 0.97) ;;
      tq <- as_num tp ;; sq <- as_num sl ;; Ok (tq, sq)
  end.

(** [_assess_risk]: the four risk factors, in the order of the source. *)
Definition risk_atr (technical_analysis : pyval) : result bool :=
  indicators <- py_get technical_analysis "indicators" (PDict []) ;;
  atr <- py_get indicators "atr" PNone ;;
  if py_truthy atr then
    a <- py_get indicators "atr" (PNum 0) ;;
    p <- py_get indicators "current_price" (PNum 1) ;;
    volatility <- py_div a p ;;
    py_gt volatility (PNum 0.05)
  else Ok false.

Definition risk_fundamental (fundamental_analysis : pyval) : result bool :=
  fundamental_score <- py_get fundamental_analysis "score" (PNum 50) ;;
  py_lt fundamental_score (PNum 40).

Definition risk_sentiment (sentiment_analysis : pyval) : result bool :=
  sentiment <- py_get sentiment_analysis "overall_sentiment" (PNum 0) ;;
  a <- py_abs sentiment ;;
  py_gt a (PNum 0.5).

(** [returns.std() > 0.03] is false on [NaN]. *)
Definition risk_history (historical_data : list Q) : bool :=
  match historical_data with
  | [] => false
  | _ => match returns_std historical_data with
         | Some sd => qlt 0.03 sd
         | None => false
         end
  end.

Definition risk_level_of (risk_factors : nat) : Risk :=
  if (3 <=? risk_factors)%nat then HIGH
  else if (2 <=? risk_factors)%nat then MEDIUM
  else LOW.


(** The number of risk factors that hold; an exception in any of the
    first three propagates to the [except] of [_assess_risk]. *)
Definition risk_factor_count (technical_analysis fundamental_analysis sentiment_analysis : pyval)
    (historical_data : list Q) : result nat :=
  a <- risk_atr technical_analysis ;;
  b <- risk_fundamental fundamental_analysis ;;
  c <- risk_sentiment sentiment_analysis ;;
  Ok (Nat.b2n a + Nat.b2n b + Nat.b2n c + Nat.b2n (risk_history historical_data))%nat.

Definition assess_risk (technical_analysis fundamental_analysis sentiment_analysis : pyval)
    (historical_data : list Q) : Risk :=
  match risk_factor_count technical_analysis fundamental_analysis sentiment_analysis
          historical_data with
  | Ok risk_factors => risk_level_of risk_factors
  | Raise _ => MEDIUM
  end.

(** [x[:3]] on the technical reasoning. *)
Definition py_slice3 (v : pyval) : result pyval :=
  match v with
  | PList l => Ok (PList (firstn 3 l))
  | PStr s => Ok (PStr (substring 0 3 s))
  | _ => Raise (mk_exc "TypeError" "object is not subscriptable")
  end.

Fixpoint strings_of (l : list pyval) : result (list string) :=
  match l with
  | [] => Ok []
  | PStr s :: l' => r <- strings_of l' ;; Ok (s :: r)
  | _ :: _ => Raise (mk_exc "TypeError" "sequence item: expected str instance")
  end.

Definition chars_of (s : string) : list string :=
  map (fun c => String c EmptyString) (list_ascii_of_string s).

(** [sep.join(items)] *)
Definition py_join (sep : string) (items : pyval) : result string :=
  match items with
  | PList l => ss <- strings_of l ;; Ok (String.concat sep ss)
  | PStr s => Ok (String.concat sep (chars_of s))
  | _ => Raise (mk_exc "TypeError" "can only join an iterable")
  end.

(** An f-string field: a string formats as itself. *)
Definition py_format (v : pyval) : string :=
  match v with PStr s => s | _ => py_str v end.

Definition generate_reasoning (action : Action) (technical_signals fundamental_assessment
    sentiment_analysis : pyval) (weighted_score : Q) : result string :=
  tech_reasoning <- py_get technical_signals "reasoning" (PList []) ;;
  tech_part <- (if py_truthy tech_reasoning then
                  first3 <- py_slice3 tech_reasoning ;;
                  j <- py_join ", " first3 ;;
                  Ok [("Technical: " ++ j)%string]
                else Ok []) ;;
  let fund := ("Fundamental: " ++ py_format fundamental_assessment ++ " assessment")%string in
  sentiment_label <- py_get sentiment_analysis "overall_sentiment_label" (PStr "NEUTRAL") ;;
  let sent := ("Sentiment: " ++ py_format sentiment_label)%string in
  let overall :=
    if qlt 30 weighted_score then "Strong bullish signals across all analyses"%string
    else if qlt weighted_score (-30) then "Strong bearish signals across all analyses"%string
    else "Mixed signals, suggesting cautious approach"%string in
  Ok (String.concat ". " (tech_part ++ [fund; sent; overall]) ++ ".")%string.

End Synthesis.

Definition suggest_position_size (confidence : Q) (risk_level : Risk) : string :=
  match risk_level with
  | HIGH => if qlt 70 confidence then "Small position (1-2% of portfolio)"%string
            else "Very small position (<1% of portfolio)"%string
  | MEDIUM => if qlt 70 confidence then "Moderate position (2-3% of portfolio)"%string
              else "Small position (1-2% of portfolio)"%string
  | LOW => if qlt 70 confidence then "Normal position (3-5% of portfolio)"%string
           else "Moderate position (2-3% of portfolio)"%string
  end.

(** The recommendation dictionary of the normal path. *)
Record RecDict : Type := mk_rec {
  action : Action;
  confidence : Q;
  target_price : Q;
  stop_loss : Q;
  risk_level : Risk;
  reasoning : string;
  position_size : string;
  time_horizon_weeks : pyval;
  weighted_score : Q;
  technical_contribution : Q;
  fundamental_contribution : Q;
  sentiment_contribution : Q
}.

(** What [generate_recommendation] returns: the full dictionary, or
    [{'action': 'HOLD', 'confidence': 0, 'error': str(e)}]. *)
Inductive Recommendation : Type :=
| Full (r : RecDict)
| Degraded (action : Action) (confidence : Q) (error : string).

Definition rec_action (r : Recommendation) : Action :=
  match r with Full d => action d | Degraded a _ _ => a end.
Definition rec_confidence (r : Recommendation) : Q :=
  match r with Full d => confidence d | Degraded _ c _ => c end.
Definition rec_error (r : Recommendation) : option string :=
  match r with Full _ => None | Degraded _ _ e => Some e end.

Section Recommend.

Variable sqrt : Q -> Q.
Variable py_str : pyval -> string.

(** The body of the [try] block of [generate_recommendation]. *)
Definition recommendation_body (stock_symbol : string) (current_price : pyval)
    (time_horizon_weeks : pyval) (technical_analysis fundamental_analysis
    sentiment_analysis : pyval) (historical_data : list Q) : result RecDict :=
  technical_signals <- py_get technical_analysis "signals" (PDict []) ;;
  technical_signal_strength <- py_get technical_signals "signal_strength" (PNum 0) ;;
  fundamental_score <- py_get fundamental_analysis "score" (PNum 50) ;;
  fundamental_assessment <- py_get fundamental_analysis "overall_assessment" (PStr "NEUTRAL") ;;
  sentiment_score <- py_get sentiment_analysis "overall_sentiment" (PNum 0) ;;
  weighted_score <- weighted_blend technical_signal_strength fundamental_score sentiment_score ;;
  let '(action, confidence) := decide weighted_score in
  targets <- calculate_price_targets sqrt current_price weighted_score time_horizon_weeks
               historical_data ;;
  let '(target_price, stop_loss) := targets in
  let risk_level := assess_risk sqrt technical_analysis fundamental_analysis
                      sentiment_analysis historical_data in
  reasoning <- generate_reasoning py_str action technical_signals fundamental_assessment
                 sentiment_analysis weighted_score ;;
  let position_size := suggest_position_size confidence risk_level in
  tc <- py_mul technical_signal_strength (PNum 0.40) ;;
  f0 <- py_sub fundamental_score (PNum 50) ;; f1 <- py_mul f0 (PNum 0.70) ;;
  fc <- py_mul f1 (PNum 0.35) ;;
  sn <- py_mul sentiment_score (PNum 100) ;; sc <- py_mul sn (PNum 0.25) ;;
  tcq <- as_num tc ;; fcq <- as_num fc ;; scq <- as_num sc ;;
  Ok (mk_rec action (py_round confidence 1) (py_round target_price 2)
        (py_round stop_loss 2) risk_level reasoning position_size time_horizon_weeks
        (py_round weighted_score 2) (py_round tcq 2) (py_round fcq 2) (py_round scq 2)).

Definition generate_recommendation (stock_symbol : string) (current_price : pyval)
    (time_horizon_weeks : pyval) (technical_analysis fundamental_analysis
    sentiment_analysis : pyval) (historical_data : list Q) : Recommendation :=
  match recommendation_body stock_symbol current_price time_horizon_weeks
          technical_analysis fundamental_analysis sentiment_analysis historical_data with
  | Ok r => Full r
  | Raise e => Degraded HOLD 0 (exc_msg e)
  end.

End Recommend.

End Predictor.

(** ** Technical indicators: the rest of [TechnicalAnalyzer] *)

Module Indicators.

(** The shape of the price [DataFrame] [calculate_indicators] checks: its
    number of rows and its column names. *)
Record Frame : Type := mk_frame { n_rows : nat; columns : list string }.

Definition has_column (df : Frame) (c : string) : bool :=
  existsb (String.eqb c) (columns df).

Definition required_cols : list string := ["Open"; "High"; "Low"; "Close"]%string.

(** [[col for col in required_cols if col not in df.columns]] *)
Definition missing_cols (df : Frame) : list string :=
  filter (fun c => negb (has_column df c)) required_cols.

(** [float(x)] of a value the [ta] library computed, inside a [try] whose
    handler stores [None]. *)
Definition try_float (r : result Q) : pyval :=
  match r with Ok q => PNum q | Raise _ => PNone end.

Section Library.

(** The last value of each series the [ta] library computes on the closes
    (and highs and lows), or the exception it raises.  [NaN] values are
    outside the rational model. *)
Variable ta_sma : nat -> result Q.
Variable ta_ema : nat -> result Q.
Variable ta_rsi : result Q.
Variable ta_macd ta_macd_signal ta_macd_diff : result Q.
Variable ta_stoch ta_stoch_signal : result Q.

(** The MACD block: the three values are set one after the other, and the
    handler sets all three to [None]. *)
Definition macd_values : pyval * pyval * pyval :=
  match ta_macd with
  | Raise _ => (PNone, PNone, PNone)
  | Ok a => match ta_macd_signal with
            | Raise _ => (PNone, PNone, PNone)
            | Ok b => match ta_macd_diff with
                      | Raise _ => (PNone, PNone, PNone)
                      | Ok c => (PNum a, PNum b, PNum c)
                      end
            end
  end.

(** The Stochastic block. *)
Definition stoch_values (df : Frame) : pyval * pyval :=
  if has_column df "High" && has_column df "Low" then
    match ta_stoch with
    | Raise _ => (PNone, PNone)
    | Ok k => match ta_stoch_signal with
              | Raise _ => (PNone, PNone)
              | Ok d => (PNum k, PNum d)
              end
    end
  else (PNone, PNone).

(** [calculate_indicators]: [{}] on an empty or short frame or a frame
    without the price columns; otherwise the eleven indicator entries, in
    insertion order.  (The outer [try] has nothing left that can raise.) *)
Definition calculate_indicators (df : Frame) : pyval :=
  if Nat.eqb (n_rows df) 0 then PDict []
  else if (n_rows df <? 20)%nat then PDict []
  else match missing_cols df with
  | _ :: _ => PDict []
  | [] =>
      let n := n_rows df in
      let '(macd, macd_signal, macd_diff) := macd_values in
      let '(stoch_k, stoch_d) := stoch_values df in
      PDict [("sma_20"%string, try_float (ta_sma 20));
             ("sma_50"%string, if (50 <=? n)%nat then try_float (ta_sma 50) else PNone);
             ("sma_200"%string, if (200 <=? n)%nat then try_float (ta_sma 200) else PNone);
             ("ema_12"%string, try_float (ta_ema 12));
             ("ema_26"%string, if (26 <=? n)%nat then try_float (ta_ema 26) else PNone);
             ("rsi"%string, try_float ta_rsi);
             ("macd"%string, macd);
             ("macd_signal"%string, macd_signal);
             ("macd_diff"%string, macd_diff);
             ("stoch_k"%string, stoch_k);
             ("stoch_d"%string, stoch_d)]
  end.

End Library.

(** [_determine_trend] on a close series and the two moving averages the
    indicator dictionary holds ([calculate_indicators] stores floats or
    [None] there).  [df['Close'].iloc[-1]] raises on an empty series and
    the bare [except] returns "NEUTRAL". *)
Definition determine_trend (closes : list Q) (sma_20 sma_50 : option Q) : string :=
  match rev closes with
  | [] => "NEUTRAL"
  | current_price :: _ =>
      let truthy o := match o with Some x => negb (Qeq_bool x 0) | None => false end in
      match sma_20, sma_50 with
      | Some s20, Some s50 =>
          if truthy sma_50 && truthy sma_20 then
            if qlt s20 current_price && qlt s50 s20 then "UPTREND"
            else if qlt current_price s20 && qlt s20 s50 then "DOWNTREND"
            else "SIDEWAYS"
          else if truthy sma_20 then
            if qlt s20 current_price then "UPTREND" else "DOWNTREND"
          else "NEUTRAL"
      | Some s20, None =>
          if truthy sma_20 then
            if qlt s20 current_price then "UPTREND" else "DOWNTREND"
          else "NEUTRAL"
      | None, _ => "NEUTRAL"
      end
  end%string.

(** [_calculate_momentum(df, period)]: [0.0] below [period + 1] closes. *)
Definition calculate_momentum (closes : list Q) (period : nat) : Q :=
  if (length closes <? period + 1)%nat then 0
  else
    let current_price := last closes 0 in
    let past_price := nth (length closes - (period + 1)) closes 0 in
    ((current_price - past_price) / past_price) * 100.

(** [series.tail(window)] *)
Definition tail_window {A} (window : nat) (l : list A) : list A :=
  skipn (length l - window) l.

(** [Series.min()] and [Series.max()]; [None] stands for the [NaN] of an
    empty series. *)
Definition series_min (l : list Q) : option Q :=
  match l with [] => None | x :: l' => Some (fold_left Qmin l' x) end.
Definition series_max (l : list Q) : option Q :=
  match l with [] => None | x :: l' => Some (fold_left Qmax l' x) end.

(** [_calculate_support] and [_calculate_resistance] on the [Low] and
    [High] columns (their handlers recompute on the same column, which
    cannot raise where the [try] did not). *)
Definition calculate_support (lows : list Q) (window : nat) : option Q :=
  series_min (tail_window window lows).
Definition calculate_resistance (highs : list Q) (window : nat) : option Q :=
  series_max (tail_window window highs).

End Indicators.

(** ** Sentiment breakdown and prediction score:
    [SentimentAnalyzer.analyze_news_collection], [get_sentiment_score_for_prediction] *)

Module SentimentBreakdown.

Import Sentiment.

(** The [sentiment_breakdown] dictionary. *)
Record Breakdown : Type := mk_breakdown {
  very_positive : nat;
  positive : nat;
  neutral : nat;
  negative : nat;
  very_negative : nat
}.

(** [r.get('average_sentiment', 0)] of every dictionary among
    [results.values()] while the breakdown is computed: the category entries
    (in any order: a sum does not depend on it) and the placeholder
    [sentiment_breakdown: {}], still in [results] until the new dictionary
    is assigned; [overall_sentiment] and [overall_sentiment_label] are not
    dictionaries. *)
Definition breakdown_inputs (r : Results) : list Q :=
  map (fun kv => average_sentiment (snd kv)) (categories r) ++ [0].

(** [sum(1 for r in ... if cond)] *)
Definition count_if (p : Q -> bool) (xs : list Q) : nat := length (filter p xs).

Definition sentiment_breakdown (r : Results) : Breakdown :=
  let vs := breakdown_inputs r in
  mk_breakdown
    (count_if (fun x => qlt 0.5 x) vs)
    (count_if (fun x => qlt 0.1 x && qle x 0.5) vs)
    (count_if (fun x => qle (-0.1) x && qle x 0.1) vs)
    (count_if (fun x => qle (-0.5) x && qlt x (-0.1)) vs)
    (count_if (fun x => qlt x (-0.5)) vs).

(** [analyze_news_collection] with its breakdown.  Nothing in the [try]
    block can raise in the model: the averages divide by non-zero counts. *)
Definition analyze_with_breakdown (news_dict : list (string * list ArticleScore))
    : Results * Breakdown :=
  let r := analyze_news_collection news_dict in (r, sentiment_breakdown r).

(** [get_sentiment_score_for_prediction] *)
Definition get_sentiment_score_for_prediction (r : Results) : Q :=
  overall_sentiment r * 100.

End SentimentBreakdown.

Module Pipeline.

(** [analyze_stock]: the technical analysis dictionary it builds from the
    indicator dictionary and the signal dictionary. *)
Definition technical_analysis_of (technical_indicators technical_signals : pyval) : pyval :=
  PDict [("indicators"%string, technical_indicators); ("signals"%string, technical_signals)].

End Pipeline.

(* ================================================================== *)
(** * Properties *)

(** ** Technical signals *)

Module TechnicalFacts.
Import Technical.

(** [m] keeps a zero signal strength, whether it returns or raises. *)
Definition keeps_zero {A} (m : M Signals A) : Prop :=
  forall s, signal_strength s = 0 -> signal_strength (snd (m s)) = 0.

Lemma keeps_zero_bind {A B} (m : M Signals A) (k : A -> M Signals B) :
  keeps_zero m -> (forall a, keeps_zero (k a)) -> keeps_zero (mbind m k).
Proof.
  intros Hm Hk s Hs. unfold mbind.
  specialize (Hm s Hs). destruct (m s) as [[a|e] s'] eqn:E; simpl in *.
  - apply Hk; exact Hm.
  - exact Hm.
Qed.

Lemma keeps_zero_lift {A} (r : result A) : keeps_zero (lift r).
Proof. intros s Hs; exact Hs. Qed.

Lemma keeps_zero_ret {A} (a : A) : keeps_zero (mret a).
Proof. intros s Hs; exact Hs. Qed.

Lemma keeps_zero_add_buy m : keeps_zero (add_buy m).
Proof. intros s Hs; exact Hs. Qed.
Lemma keeps_zero_add_sell m : keeps_zero (add_sell m).
Proof. intros s Hs; exact Hs. Qed.
Lemma keeps_zero_add_neutral : keeps_zero add_neutral.
Proof. intros s Hs; exact Hs. Qed.
Lemma keeps_zero_add_reason m : keeps_zero (add_reason m).
Proof. intros s Hs; exact Hs. Qed.

Ltac keeps_zero_tac :=
  repeat first
    [ apply keeps_zero_bind; [| intros ? ]
    | apply keeps_zero_lift | apply keeps_zero_ret
    | apply keeps_zero_add_buy | apply keeps_zero_add_sell
    | apply keeps_zero_add_neutral | apply keeps_zero_add_reason
    | match goal with |- keeps_zero (if ?c then _ else _) => destruct c end ].

Lemma tally_keeps_zero i : keeps_zero (generate_signals_tally i).
Proof. unfold generate_signals_tally. keeps_zero_tac. Qed.

(** Whatever the indicator mapping, the signal strength is either still the
    initial [0.0] or the formula over the final tallies. *)
Lemma generate_signals_strength_cases i :
  let s := generate_signals i in
  signal_strength s = 0 \/
  ((0 < buy_signals s + sell_signals s + neutral_signals s)%nat /\
   signal_strength s =
     strength_of (buy_signals s) (sell_signals s)
       (buy_signals s + sell_signals s + neutral_signals s)).
Proof.
  cbv zeta. unfold generate_signals, generate_signals_body, try_except, mbind.
  pose proof (tally_keeps_zero i signals0 eq_refl) as H0.
  destruct (generate_signals_tally i signals0) as [[[]|e] s1]; simpl in *.
  - unfold set_strength, modify; simpl.
    destruct (0 <? buy_signals s1 + sell_signals s1 + neutral_signals s1)%nat eqn:E.
    + right. simpl. split; [apply Nat.ltb_lt; exact E | reflexivity].
    + left. exact H0.
  - left. exact H0.
Qed.

Lemma strength_of_bounds b s n :
  (0 < b + s + n)%nat ->
  -100 <= strength_of b s (b + s + n) <= 100.
Proof.
  intros Hpos. unfold strength_of.
  set (t := inject_Z (Z.of_nat (b + s + n))).
  set (d := inject_Z (Z.of_nat b - Z.of_nat s)).
  assert (Ht : 0 < t) by (unfold t; change 0 with (inject_Z 0); rewrite <- Zlt_Qlt; lia).
  assert (H1 : -1 <= d / t).
  { apply Qle_shift_div_l; [exact Ht|].
    unfold d, t. change (-1) with (inject_Z (-1)). rewrite <- inject_Z_mult, <- Zle_Qle. lia. }
  assert (H2 : d / t <= 1).
  { apply Qle_shift_div_r; [exact Ht|].
    unfold d, t. rewrite Qmult_1_l, <- Zle_Qle. lia. }
  lra.
Qed.

Lemma strength_of_equal b n : strength_of b b n == 0.
Proof. unfold strength_of. rewrite Z.sub_diag. reflexivity. Qed.

(** Signal-strength bound: for every indicator mapping, the signal strength
    lies in [-100, 100] and is zero when the buy and sell tallies agree. *)
Lemma generate_signals_strength_bounded i :
  let s := generate_signals i in
  (-100 <= signal_strength s <= 100) /\
  (buy_signals s = sell_signals s -> signal_strength s == 0).
Proof.
  cbv zeta. destruct (generate_signals_strength_cases i) as [H|[Hpos H]];
    rewrite H.
  - split; [lra | reflexivity].
  - split; [apply strength_of_bounds; exact Hpos|].
    intros E. rewrite E. apply strength_of_equal.
Qed.



(** C8 (code_bug).  An indicator set whose MACD histogram is present but
    [None] (as [calculate_indicators] stores it when the MACD computation
    fails) is not defaulted: [macd_diff > 0] raises a [TypeError] after the
    RSI tally has been counted, and the handler returns the partial tallies
    with the initial strength [0.0], so [signal_strength] is not
    [(buy - sell) / total * 100] although [total = 1]. *)
Theorem generate_signals_none_macd_aborts :
  let s := generate_signals (PDict [("rsi"%string, PNum 20); ("macd_diff"%string, PNone)]) in
  buy_signals s = 1%nat /\ sell_signals s = 0%nat /\ neutral_signals s = 0%nat /\
  signal_strength s = 0 /\
  ~ (signal_strength s ==
       strength_of (buy_signals s) (sell_signals s)
         (buy_signals s + sell_signals s + neutral_signals s)).
Proof.
  vm_compute. repeat split. discriminate.
Qed.
End TechnicalFacts.

(** ** Fundamental score *)

Module FundamentalFacts.
Import Fundamental.

(** A step of the scorer that returns normally, adds [w] to [max_possible]
    and some [p] in [[0, w]] to the running score, leaves the published
    score alone, and takes the local [roe_pct] from [R1] to [R2]. *)
Definition step_ok (R1 R2 : option Q -> Prop) (m : M FState unit) (w : Q) : Prop :=
  forall st, R1 (roe_pct st) ->
  exists st' p,
    m st = (Ok tt, st') /\ 0 <= p <= w /\
    max_possible st' == max_possible st + w /\
    acc_score st' == acc_score st + p /\
    score (analysis st') = score (analysis st) /\
    R2 (roe_pct st').

Lemma step_ok_seq R1 R2 R3 m1 m2 w1 w2 :
  step_ok R1 R2 m1 w1 -> step_ok R2 R3 m2 w2 ->
  step_ok R1 R3 (m1 ;;; m2) (w1 + w2).
Proof.
  intros H1 H2 st HR.
  destruct (H1 st HR) as (st1 & p1 & E1 & Hp1 & Hm1 & Ha1 & Hs1 & HR1).
  destruct (H2 st1 HR1) as (st2 & p2 & E2 & Hp2 & Hm2 & Ha2 & Hs2 & HR2).
  exists st2, (p1 + p2). unfold mbind. rewrite E1, E2.
  repeat split; try lra. congruence. exact HR2.
Qed.

Lemma step_ok_post R1 R2 R3 m w :
  step_ok R1 R2 m w -> (forall r, R2 r -> R3 r) -> step_ok R1 R3 m w.
Proof.
  intros H Himp st HR.
  destruct (H st HR) as (st1 & p1 & E1 & Hp1 & Hm1 & Ha1 & Hs1 & HR1).
  exists st1, p1. repeat (split; [assumption|]). apply Himp; assumption.
Qed.

Lemma step_ok_weight R1 R2 m w w' :
  w == w' -> step_ok R1 R2 m w -> step_ok R1 R2 m w'.
Proof.
  intros Hw H st HR.
  destruct (H st HR) as (st1 & p1 & E1 & Hp1 & Hm1 & Ha1 & Hs1 & HR1).
  exists st1, p1. split; [assumption|]. split; [lra|].
  split; [lra|]. repeat (split; [assumption|]). assumption.
Qed.

Lemma metric_block_ok R o w points name value status :
  0 <= w -> (forall x, 0 <= points x <= w) ->
  step_ok R R (metric_block o w points name value status) (opt_weight o w).
Proof.
  intros Hw Hp st HR. destruct o as [x|]; simpl.
  - eexists _, (points x). split; [reflexivity|].
    simpl. repeat split; try apply Hp; try lra. exact HR.
  - exists st, 0. split; [reflexivity|]. repeat split; try lra. exact HR.
Qed.

Lemma roe_block_ok o :
  step_ok (fun _ => True) (fun r => o = None \/ r <> None) (roe_block o) (opt_weight o 15).
Proof.
  intros st _. destruct o as [x|]; simpl.
  - eexists _, (roe_points (x * 100)). split; [reflexivity|].
    simpl. unfold roe_points.
    repeat split;
      try (destruct (qlt 15 (x * 100)); [|destruct (qlt 10 (x * 100));
           [|destruct (qlt 5 (x * 100))]]; lra);
      try lra.
    right; discriminate.
  - exists st, 0. split; [reflexivity|]. repeat split; try lra. left; reflexivity.
Qed.

Lemma roa_block_ok o :
  step_ok (fun r => o = None \/ r <> None) (fun _ => True) (roa_block o) (opt_weight o 10).
Proof.
  intros st HR. destruct o as [x|]; simpl.
  - destruct HR as [HR|HR]; [discriminate|].
    destruct (roe_pct st) as [r|] eqn:Er; [|congruence].
    eexists _, (roa_points (x * 100)).
    split.
    { unfold mbind, modify, read_roe_pct; simpl. rewrite Er. reflexivity. }
    simpl. unfold roa_points.
    repeat split;
      try (destruct (qlt 5 (x * 100)); [|destruct (qlt 3 (x * 100))]; lra);
      try lra.
  - exists st, 0. split; [reflexivity|]. repeat split; try lra.
Qed.

Ltac band_bounds :=
  intros; repeat match goal with
                 | |- context [if ?c then _ else _] => destruct c
                 end; lra.

Lemma pe_points_bounds x : 0 <= pe_points x <= 15.
Proof. unfold pe_points. band_bounds. Qed.
Lemma pb_points_bounds x : 0 <= pb_points x <= 10.
Proof. unfold pb_points. band_bounds. Qed.
Lemma de_points_bounds x : 0 <= de_points x <= 15.
Proof. unfold de_points. band_bounds. Qed.
Lemma margin_points_bounds x : 0 <= margin_points x <= 10.
Proof. unfold margin_points. band_bounds. Qed.
Lemma revenue_points_bounds x : 0 <= revenue_points x <= 10.
Proof. unfold revenue_points. band_bounds. Qed.
Lemma earnings_points_bounds x : 0 <= earnings_points x <= 10.
Proof. unfold earnings_points. band_bounds. Qed.
Lemma current_points_bounds x : 0 <= current_points x <= 5.
Proof. unfold current_points. band_bounds. Qed.
Lemma quick_points_bounds x : 0 <= quick_points x <= 5.
Proof. unfold quick_points. band_bounds. Qed.
Lemma peg_points_bounds x : 0 <= peg_points x <= 5.
Proof. unfold peg_points. band_bounds. Qed.
Lemma op_margin_points_bounds x : 0 <= op_margin_points x <= 5.
Proof. unfold op_margin_points. band_bounds. Qed.
Lemma yield_points_bounds x : 0 <= yield_points x <= 5.
Proof. unfold yield_points. band_bounds. Qed.
Lemma beta_points_bounds x : 0 <= beta_points x <= 5.
Proof. unfold beta_points. band_bounds. Qed.

Ltac metric_step :=
  apply metric_block_ok;
  [ lra
  | intros ?; simpl;
    first [ apply pe_points_bounds | apply pb_points_bounds | apply de_points_bounds
          | apply margin_points_bounds | apply revenue_points_bounds
          | apply earnings_points_bounds | apply current_points_bounds
          | apply quick_points_bounds | apply peg_points_bounds
          | apply op_margin_points_bounds | apply yield_points_bounds
          | apply beta_points_bounds ] ].

(** Unless ROA is present without ROE, the fourteen metric blocks return
    normally and accumulate exactly the weights of the metrics present. *)
Lemma fundamental_blocks_ok d :
  roa d = None \/ roe d <> None ->
  step_ok (fun _ => True) (fun _ => True) (fundamental_blocks d) (present_weight d).
Proof.
  intros H. unfold fundamental_blocks.
  eapply step_ok_weight.
  2:{
    eapply step_ok_seq; [metric_step|].
    eapply step_ok_seq; [metric_step|].
    eapply step_ok_seq; [metric_step|].
    eapply step_ok_seq with (R2 := fun r => roa d = None \/ r <> None).
    { eapply step_ok_post; [apply roe_block_ok|].
      intros r [Hr|Hr]; [destruct H as [H|H]; [left; exact H|congruence]|right; exact Hr]. }
    eapply step_ok_seq; [apply roa_block_ok|].
    do 8 (eapply step_ok_seq; [metric_step|]).
    metric_step. }
  unfold present_weight. simpl. lra.
Qed.

Lemma present_weight_nonneg_gen (l : list (option Q * Q)) :
  (forall ow, In ow l -> 0 < snd ow) ->
  0 <= fold_right (fun ow acc => opt_weight (fst ow) (snd ow) + acc) 0 l.
Proof.
  induction l as [|[o w] l IH]; simpl; intros Hpos; [lra|].
  assert (Hw : 0 < w) by (apply (Hpos (o, w)); left; reflexivity).
  assert (IH' := IH (fun ow Hin => Hpos ow (or_intror Hin))).
  destruct o; simpl; lra.
Qed.

Lemma present_weight_pos_gen (l : list (option Q * Q)) :
  (forall ow, In ow l -> 0 < snd ow) ->
  (0 < length (filter (fun ow => match fst ow with Some _ => true | None => false end) l))%nat ->
  0 < fold_right (fun ow acc => opt_weight (fst ow) (snd ow) + acc) 0 l.
Proof.
  induction l as [|[o w] l IH]; simpl; intros Hpos Hlen; [lia|].
  assert (Hw : 0 < w) by (apply (Hpos (o, w)); left; reflexivity).
  assert (Hrest : forall ow, In ow l -> 0 < snd ow) by (intros ow Hin; apply Hpos; right; exact Hin).
  pose proof (present_weight_nonneg_gen l Hrest) as Hnn.
  destruct o; simpl in *.
  - lra.
  - specialize (IH Hrest Hlen). lra.
Qed.

Lemma present_weight_zero_gen (l : list (option Q * Q)) :
  length (filter (fun ow => match fst ow with Some _ => true | None => false end) l) = 0%nat ->
  fold_right (fun ow acc => opt_weight (fst ow) (snd ow) + acc) 0 l == 0.
Proof.
  induction l as [|[o w] l IH]; simpl; intros Hlen; [reflexivity|].
  destruct o; simpl in *; [discriminate|]. rewrite IH by exact Hlen. reflexivity.
Qed.

Lemma present_fields_pos d ow : In ow (present_fields d) -> 0 < snd ow.
Proof.
  simpl. intros Hin.
  repeat (destruct Hin as [Hin|Hin]; [subst ow; simpl; lra|]). destruct Hin.
Qed.

Lemma present_weight_pos d : (0 < metrics_present d)%nat -> 0 < present_weight d.
Proof.
  intros H. apply present_weight_pos_gen; [apply present_fields_pos | exact H].
Qed.

Lemma present_weight_zero d : metrics_present d = 0%nat -> present_weight d == 0.
Proof. apply present_weight_zero_gen. Qed.

(** When the metric blocks return normally in state [st'], the analysis
    returned is the finalised one. *)
Lemma analyze_fundamentals_ok d st' :
  fundamental_blocks d (mk_fstate analysis0 0 0 None) = (Ok tt, st') ->
  score (analyze_fundamentals d) = final_score st' /\
  overall_assessment (analyze_fundamentals d) = assessment_of (final_score st').
Proof.
  intros E. unfold analyze_fundamentals, analyze_fundamentals_body, try_except, mbind.
  simpl. rewrite E. simpl. split; reflexivity.
Qed.

Lemma final_score_pos st w p :
  0 < w -> max_possible st == w -> acc_score st == p ->
  final_score st == p / w * 100.
Proof.
  intros Hw Hm Ha. unfold final_score, qlt.
  destruct (Qle_bool (max_possible st) 0) eqn:E; simpl.
  - apply Qle_bool_iff in E. lra.
  - rewrite Hm, Ha. reflexivity.
Qed.

Lemma final_score_zero st :
  max_possible st == 0 -> final_score st = 50.
Proof.
  intros Hm. unfold final_score, qlt.
  destruct (Qle_bool (max_possible st) 0) eqn:E; simpl; [reflexivity|].
  assert (Hle : max_possible st <= 0) by lra.
  apply Qle_bool_iff in Hle. congruence.
Qed.

Lemma ratio_bounds p w : 0 < w -> 0 <= p <= w -> 0 <= p / w * 100 <= 100.
Proof.
  intros Hw [H0 H1].
  assert (0 <= p / w) by (apply Qle_shift_div_l; lra).
  assert (p / w <= 1) by (apply Qle_shift_div_r; lra).
  lra.
Qed.

(** [m] raises from every state satisfying [R] and leaves the published
    score as it was. *)
Definition raises_keeping_score (R : option Q -> Prop) (m : M FState unit) : Prop :=
  forall st, R (roe_pct st) ->
  exists e st', m st = (Raise e, st') /\ score (analysis st') = score (analysis st).

Lemma raises_after_step R1 R2 m1 m2 w :
  step_ok R1 R2 m1 w -> raises_keeping_score R2 m2 ->
  raises_keeping_score R1 (m1 ;;; m2).
Proof.
  intros H1 H2 st HR.
  destruct (H1 st HR) as (st1 & p1 & E1 & _ & _ & _ & Hs1 & HR1).
  destruct (H2 st1 HR1) as (e & st2 & E2 & Hs2).
  exists e, st2. unfold mbind. rewrite E1, E2. split; [reflexivity|congruence].
Qed.

Lemma roa_without_roe_raises a rest :
  raises_keeping_score (fun r => r = None)
    (roe_block None ;;; (roa_block (Some a) ;;; rest)).
Proof.
  intros st Hr. unfold roe_block, roa_block, mbind, mret, modify, read_roe_pct.
  simpl. rewrite Hr. eexists _, _. split; [reflexivity|reflexivity].
Qed.

(** The overall assessment is the one computed from the final score when
    the body returns, and [ERROR] when it raises. *)
Lemma analyze_fundamentals_assessment d :
  overall_assessment (analyze_fundamentals d) = ERROR \/
  overall_assessment (analyze_fundamentals d) = assessment_of (score (analyze_fundamentals d)).
Proof.
  unfold analyze_fundamentals, analyze_fundamentals_body, try_except, mbind.
  simpl. destruct (fundamental_blocks d (mk_fstate analysis0 0 0 None)) as [[[]|e] st'].
  - right. reflexivity.
  - left. reflexivity.
Qed.

(** A step of the scorer that returns normally, adds exactly [w] to
    [max_possible] and exactly [p] to the running score, leaves the
    published score alone, and takes the local [roe_pct] from [R1] to
    [R2]. *)
Definition step_exact (R1 R2 : option Q -> Prop) (m : M FState unit) (w p : Q) : Prop :=
  forall st, R1 (roe_pct st) ->
  exists st',
    m st = (Ok tt, st') /\
    max_possible st' == max_possible st + w /\
    acc_score st' == acc_score st + p /\
    score (analysis st') = score (analysis st) /\
    R2 (roe_pct st').

Lemma step_exact_seq R1 R2 R3 m1 m2 w1 w2 p1 p2 :
  step_exact R1 R2 m1 w1 p1 -> step_exact R2 R3 m2 w2 p2 ->
  step_exact R1 R3 (m1 ;;; m2) (w1 + w2) (p1 + p2).
Proof.
  intros H1 H2 st HR.
  destruct (H1 st HR) as (st1 & E1 & Hm1 & Ha1 & Hs1 & HR1).
  destruct (H2 st1 HR1) as (st2 & E2 & Hm2 & Ha2 & Hs2 & HR2).
  exists st2. unfold mbind. rewrite E1, E2.
  repeat split; try lra. congruence. exact HR2.
Qed.

Lemma step_exact_post R1 R2 R3 m w p :
  step_exact R1 R2 m w p -> (forall r, R2 r -> R3 r) -> step_exact R1 R3 m w p.
Proof.
  intros H Himp st HR.
  destruct (H st HR) as (st1 & E1 & Hm1 & Ha1 & Hs1 & HR1).
  exists st1. repeat (split; [assumption|]). apply Himp; assumption.
Qed.

Lemma step_exact_eq R1 R2 m w w' p p' :
  w == w' -> p == p' -> step_exact R1 R2 m w p -> step_exact R1 R2 m w' p'.
Proof.
  intros Hw Hp H st HR.
  destruct (H st HR) as (st1 & E1 & Hm1 & Ha1 & Hs1 & HR1).
  exists st1. split; [assumption|]. split; [lra|]. split; [lra|].
  split; assumption.
Qed.

Lemma metric_block_exact R o w points name value status :
  step_exact R R (metric_block o w points name value status)
    (opt_weight o w) (opt_points o points).
Proof.
  intros st HR. destruct o as [x|]; simpl.
  - eexists. split; [reflexivity|]. simpl. repeat split; try lra. exact HR.
  - exists st. split; [reflexivity|]. repeat split; try lra. exact HR.
Qed.

Lemma roe_block_exact o :
  step_exact (fun _ => True) (fun r => o = None \/ r <> None) (roe_block o)
    (opt_weight o 15) (opt_points o (fun r => roe_points (r * 100))).
Proof.
  intros st _. destruct o as [x|]; simpl.
  - eexists. split; [reflexivity|]. simpl. repeat split; try lra.
    right; discriminate.
  - exists st. split; [reflexivity|]. repeat split; try lra. left; reflexivity.
Qed.

Lemma roa_block_exact o :
  step_exact (fun r => o = None \/ r <> None) (fun _ => True) (roa_block o)
    (opt_weight o 10) (opt_points o (fun a => roa_points (a * 100))).
Proof.
  intros st HR. destruct o as [x|]; simpl.
  - destruct HR as [HR|HR]; [discriminate|].
    destruct (roe_pct st) as [r|] eqn:Er; [|congruence].
    eexists. split.
    { unfold mbind, modify, read_roe_pct; simpl. rewrite Er. reflexivity. }
    simpl. repeat split; lra.
  - exists st. split; [reflexivity|]. repeat split; try lra.
Qed.

(** Unless ROA is present without ROE, the fourteen metric blocks return
    normally, add the weights of the metrics present to [max_possible] and
    their band points to the running score. *)
Lemma fundamental_blocks_exact d :
  roa d = None \/ roe d <> None ->
  step_exact (fun _ => True) (fun _ => True) (fundamental_blocks d)
    (present_weight d) (present_points d).
Proof.
  intros H. unfold fundamental_blocks.
  eapply step_exact_eq.
  3:{
    eapply step_exact_seq; [apply metric_block_exact|].
    eapply step_exact_seq; [apply metric_block_exact|].
    eapply step_exact_seq; [apply metric_block_exact|].
    eapply step_exact_seq with (R2 := fun r => roa d = None \/ r <> None).
    { eapply step_exact_post; [apply roe_block_exact|].
      intros r [Hr|Hr]; [destruct H as [H|H]; [left; exact H|congruence]|right; exact Hr]. }
    eapply step_exact_seq; [apply roa_block_exact|].
    do 8 (eapply step_exact_seq; [apply metric_block_exact|]).
    apply metric_block_exact. }
  - unfold present_weight. simpl. lra.
  - unfold present_points. lra.
Qed.

Lemma opt_points_bounds o w (points : Q -> Q) :
  (forall x, 0 <= points x <= w) -> 0 <= opt_points o points <= opt_weight o w.
Proof. intros Hp. destruct o as [x|]; simpl; [apply Hp | lra]. Qed.

Lemma roe_points_bounds x : 0 <= roe_points x <= 15.
Proof. unfold roe_points. band_bounds. Qed.
Lemma roa_points_bounds x : 0 <= roa_points x <= 10.
Proof. unfold roa_points. band_bounds. Qed.

(** The accumulated points lie between 0 and the accumulated weight. *)
Lemma present_points_bounds d : 0 <= present_points d <= present_weight d.
Proof.
  unfold present_points, present_weight. simpl.
  pose proof (opt_points_bounds (pe_ratio d) 15 _ pe_points_bounds).
  pose proof (opt_points_bounds (pb_ratio d) 10 _ pb_points_bounds).
  pose proof (opt_points_bounds (debt_to_equity d) 15 _ de_points_bounds).
  pose proof (opt_points_bounds (roe d) 15 (fun r => roe_points (r * 100))
                (fun x => roe_points_bounds (x * 100))).
  pose proof (opt_points_bounds (roa d) 10 (fun a => roa_points (a * 100))
                (fun x => roa_points_bounds (x * 100))).
  pose proof (opt_points_bounds (profit_margin d) 10 (fun x => margin_points (x * 100))
                (fun x => margin_points_bounds (x * 100))).
  pose proof (opt_points_bounds (revenue_growth d) 10 (fun x => revenue_points (x * 100))
                (fun x => revenue_points_bounds (x * 100))).
  pose proof (opt_points_bounds (earnings_growth d) 10 (fun x => earnings_points (x * 100))
                (fun x => earnings_points_bounds (x * 100))).
  pose proof (opt_points_bounds (current_ratio d) 5 _ current_points_bounds).
  pose proof (opt_points_bounds (quick_ratio d) 5 _ quick_points_bounds).
  pose proof (opt_points_bounds (peg_ratio d) 5 _ peg_points_bounds).
  pose proof (opt_points_bounds (operating_margin d) 5 (fun x => op_margin_points (x * 100))
                (fun x => op_margin_points_bounds (x * 100))).
  pose proof (opt_points_bounds (dividend_yield d) 5 (fun x => yield_points (yield_pct_of x))
                (fun x => yield_points_bounds (yield_pct_of x))).
  pose proof (opt_points_bounds (beta d) 5 _ beta_points_bounds).
  lra.
Qed.

(** An input carrying ROA but no ROE keeps the initial score [0.0]. *)
Lemma roa_without_roe_score d a :
  roa d = Some a -> roe d = None -> score (analyze_fundamentals d) = 0.
Proof.
  intros Ha Hr.
  assert (Hraise : raises_keeping_score (fun r => r = None) (fundamental_blocks d)).
  { unfold fundamental_blocks. rewrite Ha, Hr.
    eapply raises_after_step; [metric_step|].
    eapply raises_after_step; [metric_step|].
    eapply raises_after_step; [metric_step|].
    apply roa_without_roe_raises. }
  destruct (Hraise (mk_fstate analysis0 0 0 None) eq_refl) as (e & st' & E & Hs).
  unfold analyze_fundamentals, analyze_fundamentals_body, try_except, mbind.
  simpl. rewrite E. simpl. simpl in Hs. exact Hs.
Qed.

(** No assessment computed from a score is [NEUTRAL]. *)
Lemma assessment_of_not_neutral sc : assessment_of sc <> NEUTRAL.
Proof.
  unfold assessment_of. destruct (qle 70 sc); [discriminate|].
  destruct (qle 50 sc); discriminate.
Qed.

(** C2 (corrected).  For every input the score lies in [[0, 100]] and the
    assessment is never [NEUTRAL] (the initial [NEUTRAL] is overwritten by
    the threshold chain or by [ERROR]).  Except on the inputs that carry ROA
    without ROE (which end in [ERROR] with score [0.0], see C9): with at
    least one recognized metric present, the score is
    [points / max_possible * 100], where [points] is the sum of the band
    points of the metrics present and [max_possible] the sum of their point
    allocations, with [0 <= points <= max_possible]; with no metric present
    the score is [50.0] and the assessment is [MODERATE]. *)
Theorem analyze_fundamentals_normalized d :
  0 <= score (analyze_fundamentals d) <= 100 /\
  overall_assessment (analyze_fundamentals d) <> NEUTRAL /\
  ((roa d = None \/ roe d <> None) ->
   ((0 < metrics_present d)%nat ->
      0 <= present_points d <= present_weight d /\
      score (analyze_fundamentals d) == present_points d / present_weight d * 100) /\
   (metrics_present d = 0%nat ->
      score (analyze_fundamentals d) = 50 /\
      overall_assessment (analyze_fundamentals d) = MODERATE)).
Proof.
  assert (Hcases : forall d', roa d' = None \/ roe d' <> None ->
    ((0 < metrics_present d')%nat ->
       0 <= present_points d' <= present_weight d' /\
       score (analyze_fundamentals d') == present_points d' / present_weight d' * 100) /\
    (metrics_present d' = 0%nat ->
       score (analyze_fundamentals d') = 50 /\
       overall_assessment (analyze_fundamentals d') = MODERATE)).
  { intros d' H.
    destruct (fundamental_blocks_exact d' H (mk_fstate analysis0 0 0 None) I)
      as (st' & E & Hm & Ha & _ & _).
    destruct (analyze_fundamentals_ok d' st' E) as [Hs Ho].
    simpl in Hm, Ha.
    split.
    - intros Hn. pose proof (present_weight_pos d' Hn) as Hw.
      split; [apply present_points_bounds|].
      rewrite Hs. apply final_score_pos; lra.
    - intros Hn. pose proof (present_weight_zero d' Hn) as Hw.
      assert (Hf : final_score st' = 50) by (apply final_score_zero; lra).
      rewrite Hs, Ho, Hf. split; reflexivity. }
  split; [|split; [|exact (Hcases d)]].
  - destruct (roa d) as [a|] eqn:Ea; [destruct (roe d) as [r|] eqn:Er|].
    + assert (Hr : roe d <> None) by congruence.
      destruct (Hcases d (or_intror Hr)) as [Hpos Hzero].
      destruct (metrics_present d) as [|n] eqn:En.
      * destruct (Hzero eq_refl) as [-> _]. lra.
      * destruct (Hpos ltac:(lia)) as [Hb ->].
        apply ratio_bounds; [apply present_weight_pos; lia | exact Hb].
    + rewrite (roa_without_roe_score d a Ea Er). lra.
    + destruct (Hcases d (or_introl Ea)) as [Hpos Hzero].
      destruct (metrics_present d) as [|n] eqn:En.
      * destruct (Hzero eq_refl) as [-> _]. lra.
      * destruct (Hpos ltac:(lia)) as [Hb ->].
        apply ratio_bounds; [apply present_weight_pos; lia | exact Hb].
  - destruct (analyze_fundamentals_assessment d) as [E|E]; rewrite E.
    + discriminate.
    + apply assessment_of_not_neutral.
Qed.

(** C2 on a P/E of 30 (8 of 15 points), an ROE of 12% (12 of 15) and an
    ROA of 4% (8 of 10): 28 points of 40, a score of 70. *)
Lemma analyze_fundamentals_normalized_witness :
  let d := mk_fdata (Some 30) None None (Some 0.12) (Some 0.04) None None None
             None None None None None None in
  (roa d = None \/ roe d <> None) /\ (0 < metrics_present d)%nat /\
  present_points d == 28 /\ present_weight d == 40 /\
  score (analyze_fundamentals d) == present_points d / present_weight d * 100 /\
  score (analyze_fundamentals d) == 70 /\
  overall_assessment (analyze_fundamentals d) <> NEUTRAL.
Proof.
  cbv zeta.
  assert (H : roa (mk_fdata (Some 30) None None (Some 0.12) (Some 0.04) None None None
             None None None None None None) = None \/
              roe (mk_fdata (Some 30) None None (Some 0.12) (Some 0.04) None None None
             None None None None None None) <> None) by (right; discriminate).
  assert (Hn : lt 0 (metrics_present (mk_fdata (Some 30) None None (Some 0.12) (Some 0.04)
             None None None None None None None None None))) by (vm_compute; lia).
  destruct (analyze_fundamentals_normalized (mk_fdata (Some 30) None None (Some 0.12)
             (Some 0.04) None None None None None None None None None))
    as (_ & Hneu & Hc).
  destruct (proj1 (Hc H) Hn) as [_ Hs].
  split; [exact H|]. split; [exact Hn|].
  split; [vm_compute; reflexivity|]. split; [vm_compute; reflexivity|].
  split; [exact Hs|]. split; [vm_compute; reflexivity|]. exact Hneu.
Defined.

(** C2 (counterexample).  The input with no metric scores [50.0] and is
    assessed [MODERATE], and no input at all is assessed [NEUTRAL]: the
    initial [NEUTRAL] is always overwritten, by the threshold chain or by
    [ERROR]. *)
Lemma analyze_fundamentals_never_neutral :
  score (analyze_fundamentals no_data) = 50 /\
  overall_assessment (analyze_fundamentals no_data) = MODERATE /\
  forall d, overall_assessment (analyze_fundamentals d) <> NEUTRAL.
Proof.
  split; [reflexivity|]. split; [reflexivity|].
  intros d. destruct (analyze_fundamentals_assessment d) as [E|E]; rewrite E.
  - discriminate.
  - unfold assessment_of. destruct (qle 70 _); [discriminate|].
    destruct (qle 50 _); discriminate.
Qed.

(** C9.  An input carrying ROA but no ROE makes the ROA status check read
    the unbound [roe_pct]: the analysis is assessed [ERROR] and keeps the
    initial score [0.0], and the function still returns. *)
Theorem analyze_fundamentals_roa_without_roe d a :
  roa d = Some a -> roe d = None ->
  overall_assessment (analyze_fundamentals d) = ERROR /\
  score (analyze_fundamentals d) = 0.
Proof.
  intros Ha Hr.
  assert (Hraise : raises_keeping_score (fun r => r = None) (fundamental_blocks d)).
  { unfold fundamental_blocks. rewrite Ha, Hr.
    eapply raises_after_step; [metric_step|].
    eapply raises_after_step; [metric_step|].
    eapply raises_after_step; [metric_step|].
    apply roa_without_roe_raises. }
  destruct (Hraise (mk_fstate analysis0 0 0 None) eq_refl) as (e & st' & E & Hs).
  unfold analyze_fundamentals, analyze_fundamentals_body, try_except, mbind.
  simpl. rewrite E. simpl. simpl in Hs. split; [reflexivity|exact Hs].
Qed.

Lemma analyze_fundamentals_roa_without_roe_witness :
  let d := mk_fdata (Some 20) None None None (Some 0.04) None None None
             None None None None None None in
  roa d = Some 0.04 /\ roe d = None /\
  overall_assessment (analyze_fundamentals d) = ERROR /\
  score (analyze_fundamentals d) = 0.
Proof.
  cbv zeta. split; [reflexivity|]. split; [reflexivity|].
  apply (analyze_fundamentals_roa_without_roe _ 0.04); reflexivity.
Defined.

End FundamentalFacts.

(** ** Sentiment aggregation *)

Module SentimentFacts.
Import Sentiment.

Lemma cat_get_set_same l k v : cat_get (cat_set l k v) k = Some v.
Proof.
  induction l as [|[k' v'] l IH]; simpl.
  - rewrite String.eqb_refl. reflexivity.
  - destruct (String.eqb k k') eqn:E; simpl; rewrite E; [reflexivity|exact IH].
Qed.

Lemma cat_get_set_other l k k' v :
  k' <> k -> cat_get (cat_set l k v) k' = cat_get l k'.
Proof.
  intros Hne. induction l as [|[k0 v0] l IH]; simpl.
  - apply String.eqb_neq in Hne. rewrite Hne. reflexivity.
  - destruct (String.eqb k k0) eqn:E; simpl.
    + apply String.eqb_eq in E. subst k0.
      apply String.eqb_neq in Hne. rewrite Hne. reflexivity.
    + destruct (String.eqb k' k0); [reflexivity|exact IH].
Qed.

Definition cat_of (arts : list ArticleScore) : CatResult :=
  mk_cat arts (simple_mean arts) (length arts) (Some (classify_sentiment (simple_mean arts))).

Lemma news_step_other acc k arts k' :
  k' <> k ->
  cat_get (categories (acc_results (news_step acc (k, arts)))) k' =
  cat_get (categories (acc_results acc)) k'.
Proof.
  intros Hne. destruct arts; simpl; [reflexivity|].
  apply cat_get_set_other. exact Hne.
Qed.

Lemma news_step_same acc k arts :
  arts <> [] ->
  cat_get (categories (acc_results (news_step acc (k, arts)))) k = Some (cat_of arts).
Proof.
  intros Hne. destruct arts as [|a arts]; [congruence|]. simpl.
  apply cat_get_set_same.
Qed.

Lemma fold_keeps_lookup news acc k :
  ~ In k (map fst news) ->
  cat_get (categories (acc_results (fold_left news_step news acc))) k =
  cat_get (categories (acc_results acc)) k.
Proof.
  revert acc. induction news as [|[k0 a0] news IH]; intros acc Hnin; simpl; [reflexivity|].
  simpl in Hnin. rewrite IH by tauto.
  apply news_step_other. intros E; apply Hnin; left; congruence.
Qed.

Lemma fold_lookup news acc k arts :
  NoDup (map fst news) -> In (k, arts) news -> arts <> [] ->
  cat_get (categories (acc_results (fold_left news_step news acc))) k = Some (cat_of arts).
Proof.
  revert acc. induction news as [|[k0 a0] news IH]; intros acc Hnd Hin Hne; simpl;
    [destruct Hin|].
  simpl in Hnd. inversion Hnd as [|? ? Hnotin Hnd']; subst.
  destruct Hin as [E|Hin].
  - inversion E; subst. rewrite fold_keeps_lookup by exact Hnotin.
    apply news_step_same. exact Hne.
  - apply IH; assumption.
Qed.

Lemma fold_keeps_overall news acc :
  overall_sentiment (acc_results (fold_left news_step news acc)) =
  overall_sentiment (acc_results acc).
Proof.
  revert acc. induction news as [|[k a] news IH]; intros acc; simpl; [reflexivity|].
  rewrite IH. destruct a; reflexivity.
Qed.

Lemma py_sum_acc xs x : fold_left Qplus xs x == x + py_sum xs.
Proof.
  unfold py_sum. revert x. induction xs as [|y xs IH]; intros x; simpl; [ring|].
  rewrite (IH (x + y)), (IH (0 + y)). ring.
Qed.

Lemma py_sum_app xs ys : py_sum (xs ++ ys) == py_sum xs + py_sum ys.
Proof.
  unfold py_sum at 1. rewrite fold_left_app. fold (py_sum xs).
  rewrite py_sum_acc. reflexivity.
Qed.

Lemma mean_times_len (xs : list Q) :
  xs <> [] -> simple_mean xs * inject_Z (Z.of_nat (length xs)) == py_sum xs.
Proof.
  intros Hne. unfold simple_mean.
  assert (Hn : ~ inject_Z (Z.of_nat (length xs)) == 0).
  { destruct xs; [congruence|]. simpl length.
    change 0 with (inject_Z 0). rewrite inject_Z_injective. lia. }
  rewrite Qmult_comm. apply Qmult_div_r. exact Hn.
Qed.

Lemma fold_totals news acc :
  total_sentiment (fold_left news_step news acc) ==
    total_sentiment acc + py_sum (all_scores news) /\
  total_count (fold_left news_step news acc) =
    (total_count acc + length (all_scores news))%nat.
Proof.
  revert acc. induction news as [|[k a] news IH]; intros acc; cbn [fold_left].
  - unfold all_scores. simpl. split; [unfold py_sum; simpl; ring | lia].
  - destruct (IH (news_step acc (k, a))) as [H1 H2].
    rewrite H1, H2. unfold all_scores in *. simpl. rewrite py_sum_app, length_app.
    destruct a as [|x a]; simpl.
    + split; [unfold py_sum; simpl; ring | reflexivity].
    + split; [|lia].
      rewrite (mean_times_len (x :: a)) by discriminate. ring.
Qed.

Lemma weighted_parts news :
  fold_right (fun kv acc => (length (snd kv) + acc)%nat) 0%nat (nonempty_categories news) =
    length (all_scores news) /\
  fold_right (fun kv acc => inject_Z (Z.of_nat (length (snd kv))) * simple_mean (snd kv) + acc)
    0 (nonempty_categories news) == py_sum (all_scores news).
Proof.
  induction news as [|[k a] news [IH1 IH2]]; [split; reflexivity|].
  unfold all_scores in *.
  change (flat_map snd ((k, a) :: news)) with (a ++ flat_map snd news).
  rewrite length_app, py_sum_app.
  destruct a as [|x a].
  - change (nonempty_categories ((k, []) :: news)) with (nonempty_categories news).
    split; [exact IH1|]. rewrite IH2. unfold py_sum; simpl. ring.
  - change (nonempty_categories ((k, x :: a) :: news))
      with ((k, x :: a) :: nonempty_categories news).
    cbn [fold_right fst snd]. rewrite IH1, IH2. split; [reflexivity|].
    rewrite Qmult_comm, (mean_times_len (x :: a)) by discriminate. reflexivity.
Qed.

Lemma overall_is_count_weighted news :
  overall_sentiment (analyze_news_collection news) == count_weighted_mean news.
Proof.
  unfold analyze_news_collection, count_weighted_mean.
  destruct (fold_totals news (mk_acc results0 0 0)) as [Ht Hc].
  destruct (weighted_parts news) as [Hn Hs].
  simpl in Ht, Hc. rewrite Hn, <- Hc.
  set (acc := fold_left news_step news (mk_acc results0 0 0)) in *.
  destruct (0 <? total_count acc)%nat.
  - cbv zeta. cbn [overall_sentiment]. rewrite Ht, Hs, Qplus_0_l. reflexivity.
  - unfold acc. rewrite fold_keeps_overall. reflexivity.
Qed.

Lemma categories_of_analyze news :
  categories (analyze_news_collection news) =
  categories (acc_results (fold_left news_step news (mk_acc results0 0 0))).
Proof.
  unfold analyze_news_collection.
  destruct (0 <? _)%nat; reflexivity.
Qed.

Definition example_news : list (string * list ArticleScore) :=
  [("global_news"%string, []); ("indian_market_news"%string, repeat 0.6 10);
   ("company_news"%string, repeat 0.2 10)].

(** C3.  For a news collection (distinct category names): every category
    with articles is recorded with the simple mean of its combined scores
    and its article count; the overall sentiment is the count-weighted mean
    of the category means over the non-empty categories, so an empty
    category changes nothing; for [global_news] empty and two categories of
    ten articles averaging [0.6] and [0.2], the overall sentiment is [0.4]. *)
Theorem analyze_news_collection_weighted news :
  NoDup (map fst news) ->
  (forall k arts, In (k, arts) news -> arts <> [] ->
     exists cr,
       cat_get (categories (analyze_news_collection news)) k = Some cr /\
       average_sentiment cr = simple_mean arts /\
       count cr = length arts) /\
  overall_sentiment (analyze_news_collection news) == count_weighted_mean news /\
  overall_sentiment (analyze_news_collection news) ==
    overall_sentiment (analyze_news_collection (nonempty_categories news)) /\
  overall_sentiment (analyze_news_collection example_news) == 0.4.
Proof.
  intros Hnd. split; [|split; [|split]].
  - intros k arts Hin Hne. exists (cat_of arts).
    rewrite categories_of_analyze. split; [apply fold_lookup; assumption|].
    split; reflexivity.
  - apply overall_is_count_weighted.
  - rewrite !overall_is_count_weighted. unfold count_weighted_mean.
    assert (Hidem : nonempty_categories (nonempty_categories news) = nonempty_categories news).
    { induction news as [|[k a] news IH]; [reflexivity|].
      destruct a as [|x a]; simpl.
      - apply IH. inversion Hnd; assumption.
      - f_equal. apply IH. inversion Hnd; assumption. }
    rewrite Hidem. reflexivity.
  - vm_compute. reflexivity.
Qed.

Lemma analyze_news_collection_weighted_witness :
  NoDup (map fst example_news) /\
  overall_sentiment (analyze_news_collection example_news) == 0.4.
Proof.
  assert (Hnd : NoDup (map fst example_news)).
  { simpl. repeat constructor; simpl; intuition discriminate. }
  split; [exact Hnd|].
  apply (analyze_news_collection_weighted example_news Hnd).
Defined.

End SentimentFacts.

(** ** The recommendation synthesizer *)

Module PredictorFacts.

Import Predictor.

Lemma bind_ok {A B} (m : result A) (k : A -> result B) r :
  bind m k = Ok r -> exists a, m = Ok a /\ k a = Ok r.
Proof. destruct m; cbn; [eauto | discriminate]. Qed.

Lemma Qle_bool_false a b : Qle_bool a b = false -> b < a.
Proof.
  intro E. apply Qnot_le_lt. intro H. apply Qle_bool_iff in H. congruence.
Qed.

(** Turn every [Qle_bool] test of the goal into a hypothesis. *)
Ltac qcases :=
  repeat match goal with
  | |- context [Qle_bool ?a ?b] =>
      let E := fresh "E" in
      destruct (Qle_bool a b) eqn:E;
      [apply Qle_bool_iff in E | apply Qle_bool_false in E]
  end; cbn [negb fst snd] in *.

Lemma py_min_Qmin a b : py_min a b = Qmin a b.
Proof.
  unfold py_min, qlt, Qmin, GenericMinMax.gmin.
  destruct (Qle_bool a b) eqn:E; cbn [negb].
  - apply Qle_bool_iff in E. rewrite Qle_alt in E. destruct (a ?= b); congruence.
  - apply Qle_bool_false in E. change (a > b) in E. rewrite Qgt_alt in E. rewrite E. reflexivity.
Qed.

Lemma py_max_Qmax a b : py_max a b = Qmax a b.
Proof.
  unfold py_max, qlt, Qmax, GenericMinMax.gmax.
  destruct (Qle_bool b a) eqn:E; cbn [negb].
  - apply Qle_bool_iff in E. change (a >= b) in E. rewrite Qge_alt in E.
    destruct (a ?= b); congruence.
  - apply Qle_bool_false in E. rewrite Qlt_alt in E. rewrite E. reflexivity.
Qed.

Lemma Qabs_cases x : (0 <= x /\ Qabs x == x) \/ (x < 0 /\ Qabs x == - x).
Proof.
  destruct (Qlt_le_dec x 0) as [H | H].
  - right. split; [exact H | apply Qabs_neg; lra].
  - left. split; [exact H | apply Qabs_pos; exact H].
Qed.

(** Unrounded confidence of every branch of the decision. *)
Lemma decide_confidence_bounds ws : 35 < snd (decide ws) <= 95.
Proof.
  unfold decide, qle, py_min, py_max, qlt. qcases;
  destruct (Qabs_cases ws) as [[? ?] | [? ?]]; lra.
Qed.

Lemma decide_hold ws :
  -30 < ws < 30 -> decide ws = (HOLD, 50 - Qabs ws * 0.5) /\ 35 < 50 - Qabs ws * 0.5.
Proof.
  intros [H1 H2].
  assert (35 < 50 - Qabs ws * 0.5) by (destruct (Qabs_cases ws) as [[? ?] | [? ?]]; lra).
  split; [| exact H].
  unfold decide, qle, py_max, qlt. qcases; try lra. reflexivity.
Qed.

(** Rounding half to even keeps a value between two integers between
    them. *)
Lemma round_half_even_bounds (y : Q) (lo hi : Z) :
  inject_Z lo <= y <= inject_Z hi -> (lo <= round_half_even y <= hi)%Z.
Proof.
  intros [Hlo Hhi].
  pose proof (Qfloor_le y) as Hf. pose proof (Qlt_floor y) as Hf1.
  assert (lo <= Qfloor y)%Z.
  { rewrite <- (Qfloor_Z lo). apply Qfloor_resp_le. exact Hlo. }
  assert (Qfloor y <= hi)%Z.
  { rewrite Zle_Qle. lra. }
  unfold round_half_even, qlt. cbv zeta. qcases;
    try destruct (Z.even (Qfloor y)); try lia;
    assert (Qfloor y <> hi) by (intro Heq; rewrite Heq in *; lra); lia.
Qed.

Lemma py_round1_bounds (x : Q) : 35 <= x <= 95 -> 35 <= py_round x 1 <= 95.
Proof.
  intros Hx. unfold py_round.
  change (inject_Z (10 ^ Z.of_nat 1)) with 10.
  assert (350 <= round_half_even (x * 10) <= 950)%Z as [H1 H2]
    by (apply round_half_even_bounds; change (inject_Z 350) with 350;
        change (inject_Z 950) with 950; lra).
  rewrite Zle_Qle in H1, H2. change (inject_Z 350) with 350 in H1.
  change (inject_Z 950) with 950 in H2.
  set (z := inject_Z (round_half_even (x * 10))) in *.
  split.
  - apply Qle_shift_div_l; lra.
  - apply Qle_shift_div_r; lra.
Qed.

(** Peel the [bind]s and tuple matches off a hypothesis [... = Ok r]. *)
Ltac peel H :=
  repeat match type of H with
  | bind _ _ = Ok _ =>
      let x := fresh "x" in let Hx := fresh "Hx" in
      apply bind_ok in H as [x [Hx H]]
  | (match ?p with pair _ _ => _ end) = Ok _ =>
      let a := fresh "a" in let b := fresh "b" in let Ep := fresh "Ep" in
      destruct p as [a b] eqn:Ep; cbv beta iota in H
  end.

(** The action, confidence and weighted score of a recommendation come
    from the blended score of the three analyses. *)
Lemma recommendation_body_inv sqrt py_str sym cp h ta fa sa hist r :
  recommendation_body sqrt py_str sym cp h ta fa sa hist = Ok r ->
  exists tss fs ss ws,
    (ts <- py_get ta "signals" (PDict []) ;; py_get ts "signal_strength" (PNum 0)) = Ok tss /\
    py_get fa "score" (PNum 50) = Ok fs /\
    py_get sa "overall_sentiment" (PNum 0) = Ok ss /\
    weighted_blend tss fs ss = Ok ws /\
    action r = fst (decide ws) /\ confidence r = py_round (snd (decide ws)) 1 /\
    weighted_score r = py_round ws 2.
Proof.
  unfold recommendation_body. intro H. peel H.
  injection H as <-.
  exists x0, x1, x3, x4. rewrite Hx. cbn [bind].
  rewrite Ep. cbn [fst snd action confidence weighted_score]. auto 8.
Qed.

(** Messages of the exceptions the model raises are never empty. *)
Definition msg_ok {A} (r : result A) : Prop :=
  forall e, r = Raise e -> exc_msg e <> EmptyString.

Lemma msg_ok_ok {A} (a : A) : msg_ok (Ok a).
Proof. intros e H. discriminate. Qed.

Lemma msg_ok_raise {A} t m : m <> EmptyString -> msg_ok (A := A) (Raise (mk_exc t m)).
Proof. intros Hm e H. injection H as <-. exact Hm. Qed.

Lemma msg_ok_bind {A B} (m : result A) (k : A -> result B) :
  msg_ok m -> (forall a, msg_ok (k a)) -> msg_ok (bind m k).
Proof. intros Hm Hk e. destruct m as [a | e0]; cbn; [exact (Hk a e) | intro H; injection H as <-; exact (Hm e0 eq_refl)]. Qed.

Create HintDb msg.

Ltac msg_tac :=
  repeat first
  [ apply msg_ok_ok
  | apply msg_ok_raise; cbn; discriminate
  | apply msg_ok_bind; [ | intro ]
  | progress (eauto with msg)
  | match goal with
    | |- msg_ok (match ?x with _ => _ end) => destruct x
    | |- msg_ok (if ?x then _ else _) => destruct x
    end ].



Lemma py_get_msg o k d : msg_ok (py_get o k d).
Proof. unfold py_get. msg_tac. Qed.

Lemma py_lt_msg a b : msg_ok (py_lt a b).
Proof. unfold py_lt. destruct a, b; msg_tac. Qed.

Lemma py_gt_msg a b : msg_ok (py_gt a b).
Proof. apply py_lt_msg. Qed.

Lemma py_add_msg a b : msg_ok (py_add a b).
Proof. unfold py_add, type_error. destruct a, b; msg_tac. Qed.

Lemma py_sub_msg a b : msg_ok (py_sub a b).
Proof. unfold py_sub, type_error. destruct a, b; msg_tac. Qed.

Lemma py_mul_msg a b : msg_ok (py_mul a b).
Proof. unfold py_mul, type_error. destruct a, b; msg_tac. Qed.

Lemma py_div_msg a b : msg_ok (py_div a b).
Proof. unfold py_div, type_error. destruct a, b; msg_tac. Qed.

Lemma py_abs_msg a : msg_ok (py_abs a).
Proof. unfold py_abs. destruct a; msg_tac. Qed.

Lemma as_num_msg a : msg_ok (as_num a).
Proof. unfold as_num. destruct a; msg_tac. Qed.

Lemma py_slice3_msg a : msg_ok (py_slice3 a).
Proof. unfold py_slice3. destruct a; msg_tac. Qed.

Lemma strings_of_msg l : msg_ok (strings_of l).
Proof. induction l as [| v l IH]; cbn; [msg_tac | destruct v; msg_tac]. Qed.

#[local] Hint Resolve py_get_msg py_lt_msg py_gt_msg py_add_msg py_sub_msg py_mul_msg
  py_div_msg py_abs_msg as_num_msg py_slice3_msg strings_of_msg : msg.

Lemma py_join_msg s a : msg_ok (py_join s a).
Proof. unfold py_join. destruct a; msg_tac. Qed.

Lemma weighted_blend_msg a b c : msg_ok (weighted_blend a b c).
Proof. unfold weighted_blend. msg_tac. Qed.

#[local] Hint Resolve py_join_msg weighted_blend_msg : msg.

Lemma calculate_price_targets_msg sqrt cp ws h hist :
  msg_ok (calculate_price_targets sqrt cp ws h hist).
Proof.
  unfold calculate_price_targets.
  destruct (price_targets_body sqrt cp ws h hist); msg_tac.
Qed.

Lemma generate_reasoning_msg py_str act ts fa sa ws :
  msg_ok (generate_reasoning py_str act ts fa sa ws).
Proof. unfold generate_reasoning. msg_tac. Qed.

#[local] Hint Resolve calculate_price_targets_msg generate_reasoning_msg : msg.

Lemma recommendation_body_msg sqrt py_str sym cp h ta fa sa hist :
  msg_ok (recommendation_body sqrt py_str sym cp h ta fa sa hist).
Proof. unfold recommendation_body. msg_tac. Qed.

(** C1: when the synthesis reaches the decision step, the action and the
    confidence are the decision on the blended score: from 30 up (30
    itself included) BUY with confidence min(95, 50 + |ws|*0.9), from -30
    down SELL with the same confidence, strictly between HOLD with
    confidence max(30, 50 - |ws|*0.5); 30 gives BUY and 29.999 gives HOLD.
    The recommendation reports that confidence rounded to one decimal. *)
Theorem decide_thresholds :
  (forall ws : Q,
     (30 <= ws -> decide ws = (BUY, Qmin 95 (50 + Qabs ws * 0.9))) /\
     (ws <= -30 -> decide ws = (SELL, Qmin 95 (50 + Qabs ws * 0.9))) /\
     (-30 < ws < 30 -> decide ws = (HOLD, Qmax 30 (50 - Qabs ws * 0.5)))) /\
  fst (decide 30) = BUY /\ fst (decide (29999 # 1000)) = HOLD /\
  (forall sqrt py_str sym cp h ta fa sa hist r,
     recommendation_body sqrt py_str sym cp h ta fa sa hist = Ok r ->
     exists ws, action r = fst (decide ws) /\ confidence r = py_round (snd (decide ws)) 1).
Proof.
  split; [| split; [reflexivity | split; [reflexivity |]]].
  - intro ws. unfold decide, qle.
    rewrite !py_min_Qmin, py_max_Qmax.
    repeat split; intros; qcases; try reflexivity; lra.
  - intros sqrt py_str sym cp h ta fa sa hist r H.
    apply recommendation_body_inv in H
      as (tss & fs & ss & ws & _ & _ & _ & _ & Ha & Hc & _).
    exists ws. auto.
Qed.

(** C1 at the boundary: the theorem applied at 30 and at -30. *)
Lemma decide_thresholds_witness :
  decide 30 = (BUY, Qmin 95 (50 + Qabs 30 * 0.9)) /\
  decide (-30) = (SELL, Qmin 95 (50 + Qabs (-30) * 0.9)).
Proof.
  split.
  - apply (proj1 (proj1 decide_thresholds 30)). vm_compute. discriminate.
  - apply (proj1 (proj2 (proj1 decide_thresholds (-30)))). vm_compute. discriminate.
Defined.

(** The end-to-end scenario of the specification. *)
Definition scenario_technical : pyval :=
  PDict [("signals"%string, PDict [("signal_strength"%string, PNum 60)])].
Definition scenario_fundamental : pyval :=
  PDict [("score"%string, PNum 80); ("overall_assessment"%string, PStr "STRONG")].
Definition scenario_sentiment : pyval :=
  PDict [("overall_sentiment"%string, PNum (3 # 10));
         ("overall_sentiment_label"%string, PStr "POSITIVE")].

(** C4: for numeric inputs the weighted score is
    signal_strength*0.40 + (score - 50)*0.70*0.35 + (sentiment*100)*0.25,
    and every recommendation reports it (rounded to two decimals) together
    with the decision on it.  For signal strength 60, fundamental score 80
    and sentiment 0.3 the score is 38.85, the action BUY, the confidence
    min(95, 50 + 38.85*0.9) = 84.965, reported as 85.0. *)
Theorem weighted_blend_formula :
  (forall t f s : Q,
     weighted_blend (PNum t) (PNum f) (PNum s) =
     Ok (t * 0.40 + (f - 50) * 0.70 * 0.35 + s * 100 * 0.25)) /\
  (forall sqrt py_str sym cp h ta fa sa hist r,
     recommendation_body sqrt py_str sym cp h ta fa sa hist = Ok r ->
     exists tss fs ss ws,
       (ts <- py_get ta "signals" (PDict []) ;; py_get ts "signal_strength" (PNum 0)) = Ok tss /\
       py_get fa "score" (PNum 50) = Ok fs /\
       py_get sa "overall_sentiment" (PNum 0) = Ok ss /\
       weighted_blend tss fs ss = Ok ws /\
       weighted_score r = py_round ws 2 /\ action r = fst (decide ws)) /\
  (exists ws, weighted_blend (PNum 60) (PNum 80) (PNum (3 # 10)) = Ok ws /\
     ws == 3885 # 100 /\ fst (decide ws) = BUY /\
     snd (decide ws) == Qmin 95 (50 + (3885 # 100) * 0.9) /\ snd (decide ws) == 84965 # 1000) /\
  (forall sqrt py_str cp h,
     match recommendation_body sqrt py_str "SCENARIO" (PNum cp) h scenario_technical
             scenario_fundamental scenario_sentiment [] with
     | Ok r => action r = BUY /\ confidence r == 85 /\ weighted_score r == 3885 # 100
     | Raise _ => False
     end).
Proof.
  split; [| split; [| split]].
  - reflexivity.
  - intros sqrt py_str sym cp h ta fa sa hist r H.
    apply recommendation_body_inv in H
      as (tss & fs & ss & ws & H1 & H2 & H3 & H4 & Ha & _ & Hw).
    exists tss, fs, ss, ws. auto 7.
  - eexists. split; [reflexivity |]. vm_compute. repeat split; reflexivity.
  - intros sqrt py_str cp h. destruct cp as [n d].
    destruct h; vm_compute; repeat split; reflexivity.
Qed.

(** C5: with fewer than 21 closes the targets are the fixed fallback:
    above zero 5% up with a 3% stop below, below zero 5% down with a 3%
    stop above, at zero the current price with a 2% stop below. *)
Theorem price_targets_fallback (sqrt : Q -> Q) (current_price weighted_score : Q)
    (time_horizon_weeks : pyval) (historical_data : list Q)
    (Hshort : (length historical_data < 21)%nat) :
  (0 < weighted_score ->
     calculate_price_targets sqrt (PNum current_price) weighted_score time_horizon_weeks
       historical_data = Ok (current_price * 1.05, current_price * 0.97)) /\
  (weighted_score < 0 ->
     calculate_price_targets sqrt (PNum current_price) weighted_score time_horizon_weeks
       historical_data = Ok (current_price * 0.95, current_price * 1.03)) /\
  (weighted_score == 0 ->
     calculate_price_targets sqrt (PNum current_price) weighted_score time_horizon_weeks
       historical_data = Ok (current_price, current_price * 0.98)).
Proof.
  assert (E : (20 <? length historical_data)%nat = false) by (apply Nat.ltb_ge; lia).
  unfold calculate_price_targets, price_targets_body. rewrite E, andb_false_r.
  unfold qlt. repeat split; intros; qcases; try reflexivity; lra.
Qed.

(** C5 on twenty closes and a price of 100. *)
Lemma price_targets_fallback_witness :
  (length (repeat (100 : Q) 20) < 21)%nat /\
  calculate_price_targets (fun q => q) (PNum 100) 12 (PNum 4) (repeat 100 20) =
  Ok (100 * 1.05, 100 * 0.97).
Proof.
  split; [cbn; lia |].
  apply (price_targets_fallback (fun q => q) 100 12 (PNum 4) (repeat 100 20)).
  - cbn; lia.
  - reflexivity.
Defined.

(** C6: the risk level follows the number of risk factors (ATR over price
    above 0.05, fundamental score below 40, |sentiment| above 0.5, standard
    deviation of the daily returns above 0.03): three or more give HIGH, so
    the first three alone give HIGH whatever the fourth, exactly two give
    MEDIUM, fewer give LOW; an exception while counting gives MEDIUM, never
    LOW. *)
Theorem assess_risk_by_count (sqrt : Q -> Q) (ta fa sa : pyval) (hist : list Q) :
  (forall a b c, risk_atr ta = Ok a -> risk_fundamental fa = Ok b ->
     risk_sentiment sa = Ok c ->
     risk_factor_count sqrt ta fa sa hist =
     Ok (Nat.b2n a + Nat.b2n b + Nat.b2n c + Nat.b2n (risk_history sqrt hist))%nat) /\
  (forall n, risk_factor_count sqrt ta fa sa hist = Ok n ->
     ((3 <= n)%nat -> assess_risk sqrt ta fa sa hist = HIGH) /\
     (n = 2%nat -> assess_risk sqrt ta fa sa hist = MEDIUM) /\
     ((n < 2)%nat -> assess_risk sqrt ta fa sa hist = LOW)) /\
  (risk_atr ta = Ok true -> risk_fundamental fa = Ok true -> risk_sentiment sa = Ok true ->
     assess_risk sqrt ta fa sa hist = HIGH) /\
  (forall e, risk_factor_count sqrt ta fa sa hist = Raise e ->
     assess_risk sqrt ta fa sa hist = MEDIUM /\ assess_risk sqrt ta fa sa hist <> LOW).
Proof.
  unfold assess_risk.
  split; [| split; [| split]].
  - intros a b c Ha Hb Hc. unfold risk_factor_count. rewrite Ha, Hb, Hc. reflexivity.
  - intros n Hn. rewrite Hn. unfold risk_level_of.
    repeat split; intros; subst; try reflexivity;
      repeat match goal with
      | |- context [(?k <=? ?m)%nat] =>
          let E := fresh "E" in destruct (k <=? m)%nat eqn:E;
          [apply Nat.leb_le in E | apply Nat.leb_gt in E]
      end; try reflexivity; lia.
  - intros Ha Hb Hc. unfold risk_factor_count. rewrite Ha, Hb, Hc. cbn [bind].
    unfold risk_level_of. destruct (risk_history sqrt hist); reflexivity.
  - intros e He. rewrite He. split; [reflexivity | discriminate].
Qed.

(** C6 on an ATR of 6% of the price, a fundamental score of 30 and a
    sentiment of 0.8, with no price history. *)
Lemma assess_risk_by_count_witness :
  assess_risk (fun q => q)
    (PDict [("indicators"%string, PDict [("atr"%string, PNum 6); ("current_price"%string, PNum 100)])])
    (PDict [("score"%string, PNum 30)])
    (PDict [("overall_sentiment"%string, PNum (8 # 10))]) [] = HIGH.
Proof.
  apply (proj1 (proj2 (proj2 (assess_risk_by_count (fun q => q)
    (PDict [("indicators"%string, PDict [("atr"%string, PNum 6); ("current_price"%string, PNum 100)])])
    (PDict [("score"%string, PNum 30)])
    (PDict [("overall_sentiment"%string, PNum (8 # 10))]) []))));
  reflexivity.
Defined.

(** C7: [generate_recommendation] always returns (its result type has no
    exception); when the body raises, the result is HOLD with confidence 0
    and the exception's message, which is never empty. *)
Theorem generate_recommendation_degrades (sqrt : Q -> Q) (py_str : pyval -> string)
    (sym : string) (cp h ta fa sa : pyval) (hist : list Q) :
  (forall e, recommendation_body sqrt py_str sym cp h ta fa sa hist = Raise e ->
     generate_recommendation sqrt py_str sym cp h ta fa sa hist = Degraded HOLD 0 (exc_msg e)) /\
  (forall r, recommendation_body sqrt py_str sym cp h ta fa sa hist = Ok r ->
     generate_recommendation sqrt py_str sym cp h ta fa sa hist = Full r) /\
  (forall act c m, generate_recommendation sqrt py_str sym cp h ta fa sa hist = Degraded act c m ->
     act = HOLD /\ c = 0 /\ m <> EmptyString).
Proof.
  unfold generate_recommendation.
  pose proof (recommendation_body_msg sqrt py_str sym cp h ta fa sa hist) as Hmsg.
  split; [| split].
  - intros e He. rewrite He. reflexivity.
  - intros r Hr. rewrite Hr. reflexivity.
  - intros act c m.
    destruct (recommendation_body sqrt py_str sym cp h ta fa sa hist) as [r | e]; [discriminate |].
    intro H. injection H as <- <- <-. repeat split. exact (Hmsg e eq_refl).
Qed.

(** C7 on a fundamental score that is a string: the subtraction raises a
    [TypeError] and the recommendation degrades. *)
Lemma generate_recommendation_degrades_witness :
  recommendation_body (fun q => q) (fun _ => EmptyString) "X" (PNum 100) (PNum 4)
    scenario_technical (PDict [("score"%string, PStr "high")]) scenario_sentiment [] =
  Raise (mk_exc "TypeError" "unsupported operand type(s) for -") /\
  generate_recommendation (fun q => q) (fun _ => EmptyString) "X" (PNum 100) (PNum 4)
    scenario_technical (PDict [("score"%string, PStr "high")]) scenario_sentiment [] =
  Degraded HOLD 0 "unsupported operand type(s) for -".
Proof.
  split; [reflexivity |].
  apply (proj1 (generate_recommendation_degrades (fun q => q) (fun _ => EmptyString) "X"
    (PNum 100) (PNum 4) scenario_technical (PDict [("score"%string, PStr "high")])
    scenario_sentiment [])
    (mk_exc "TypeError" "unsupported operand type(s) for -")).
  reflexivity.
Defined.

(** C10: every full recommendation has a confidence in [35, 95]; in the
    HOLD band the floor 30 of max(30, ...) never binds, the confidence
    being 50 - |ws|*0.5 > 35; a confidence of 0 only comes from the error
    path. *)
Theorem recommendation_confidence_range (sqrt : Q -> Q) (py_str : pyval -> string)
    (sym : string) (cp h ta fa sa : pyval) (hist : list Q) :
  (forall r, generate_recommendation sqrt py_str sym cp h ta fa sa hist = Full r ->
     35 <= confidence r <= 95) /\
  (forall ws, -30 < ws < 30 ->
     decide ws = (HOLD, 50 - Qabs ws * 0.5) /\ 35 < 50 - Qabs ws * 0.5) /\
  (rec_confidence (generate_recommendation sqrt py_str sym cp h ta fa sa hist) == 0 ->
     exists m, generate_recommendation sqrt py_str sym cp h ta fa sa hist = Degraded HOLD 0 m).
Proof.
  assert (Hfull : forall r, recommendation_body sqrt py_str sym cp h ta fa sa hist = Ok r ->
                  35 <= confidence r <= 95).
  { intros r H. apply recommendation_body_inv in H
      as (tss & fs & ss & ws & _ & _ & _ & _ & _ & Hc & _).
    rewrite Hc. apply py_round1_bounds.
    pose proof (decide_confidence_bounds ws). lra. }
  unfold generate_recommendation.
  split; [| split].
  - intros r H.
    destruct (recommendation_body sqrt py_str sym cp h ta fa sa hist) as [r' | e] eqn:E;
      [| discriminate].
    injection H as <-. exact (Hfull r' eq_refl).
  - exact decide_hold.
  - destruct (recommendation_body sqrt py_str sym cp h ta fa sa hist) as [r | e] eqn:E.
    + cbn [rec_confidence]. intro H0. pose proof (Hfull r eq_refl). lra.
    + intros _. exists (exc_msg e). reflexivity.
Qed.

(** C10 on the end-to-end scenario, whose confidence 85 lies in [35, 95]. *)
Lemma recommendation_confidence_range_witness :
  exists r, generate_recommendation (fun q => q) (fun _ => EmptyString) "SCENARIO" (PNum 100)
    (PNum 4) scenario_technical scenario_fundamental scenario_sentiment [] = Full r /\
    35 <= confidence r <= 95.
Proof.
  eexists. split; [reflexivity |].
  apply (proj1 (recommendation_confidence_range (fun q => q) (fun _ => EmptyString) "SCENARIO"
    (PNum 100) (PNum 4) scenario_technical scenario_fundamental scenario_sentiment [])).
  reflexivity.
Defined.

End PredictorFacts.

(** ** Technical indicators *)

Module IndicatorsFacts.

Import Technical Indicators.

Definition indicator_keys : list string :=
  ["sma_20"; "sma_50"; "sma_200"; "ema_12"; "ema_26"; "rsi"; "macd"; "macd_signal";
   "macd_diff"; "stoch_k"; "stoch_d"]%string.

(** A float or [None]. *)
Definition num_or_none (v : pyval) : Prop := v = PNone \/ exists q, v = PNum q.

Lemma try_float_num r : num_or_none (try_float r).
Proof. destruct r; [right; eexists; reflexivity | left; reflexivity]. Qed.

Lemma macd_values_cases ma ms md :
  let '(a, b, c) := macd_values ma ms md in
  (a = PNone /\ b = PNone /\ c = PNone) \/
  (exists x y z, a = PNum x /\ b = PNum y /\ c = PNum z).
Proof.
  unfold macd_values. destruct ma, ms, md; cbn; eauto 10.
Qed.

Lemma stoch_values_cases sk sd df :
  let '(a, b) := stoch_values sk sd df in num_or_none a /\ num_or_none b.
Proof.
  unfold stoch_values, num_or_none.
  destruct (_ && _), sk, sd; cbn; split; eauto.
Qed.

(** The set of strengths a tally of at most two signals can give. *)
Definition small_strength (s : Q) : bool :=
  existsb (Qeq_bool s) [-100; -50; 0; 50; 100].

(** Splitting on every rational comparison of the goal. *)
Ltac qsplit :=
  repeat match goal with
  | |- context [Qle_bool ?a ?b] => first [is_var a | is_var b]; destruct (Qle_bool a b)
  end.

Lemma rev_cons_last (l t : list Q) (c d : Q) : rev l = c :: t -> last l d = c.
Proof.
  intro H. rewrite <- (rev_involutive l), H. cbn. apply last_last.
Qed.

Lemma fold_min_le (l : list Q) (x : Q) : fold_left Qmin l x <= x.
Proof.
  revert x; induction l as [|a l IH]; intro x; cbn; [lra|].
  specialize (IH (Qmin x a)). pose proof (Q.le_min_l x a). lra.
Qed.

Lemma fold_max_ge (l : list Q) (x : Q) : x <= fold_left Qmax l x.
Proof.
  revert x; induction l as [|a l IH]; intro x; cbn; [lra|].
  specialize (IH (Qmax x a)). pose proof (Q.le_max_l x a). lra.
Qed.

Lemma Forall2_skipn {A B} (R : A -> B -> Prop) n l1 l2 :
  Forall2 R l1 l2 -> Forall2 R (skipn n l1) (skipn n l2).
Proof.
  intro H; revert n; induction H as [|a b l1 l2 Hab H IH]; intro n;
    destruct n; cbn; auto.
Qed.

(** X1: a frame that is short (fewer than 20 rows) or lacks one of the
    price columns gives the empty indicator dictionary, and the signal
    summary of that dictionary is one neutral signal with strength 0. *)
Lemma calculate_indicators_short sma ema rsi ma ms md sk sd df :
  ((n_rows df < 20)%nat \/ missing_cols df <> []) ->
  calculate_indicators sma ema rsi ma ms md sk sd df = PDict [] /\
  generate_signals (calculate_indicators sma ema rsi ma ms md sk sd df)
    = mk_signals 0 0 1 0 [].
Proof.
  intro H.
  assert (E : calculate_indicators sma ema rsi ma ms md sk sd df = PDict []).
  { unfold calculate_indicators.
    destruct (Nat.eqb _ 0); [reflexivity|].
    destruct (n_rows df <? 20)%nat eqn:E20; [reflexivity|].
    apply Nat.ltb_ge in E20.
    destruct (missing_cols df); [|reflexivity].
    destruct H as [H|H]; [lia | congruence]. }
  rewrite E. split; [reflexivity | vm_compute; reflexivity].
Qed.

Lemma calculate_indicators_short_witness :
  ((n_rows (mk_frame 19 required_cols) < 20)%nat \/
   missing_cols (mk_frame 19 required_cols) <> []) /\
  calculate_indicators (fun _ => Ok 1) (fun _ => Ok 1) (Ok 1) (Ok 1) (Ok 1) (Ok 1)
    (Ok 1) (Ok 1) (mk_frame 19 required_cols) = PDict [] /\
  generate_signals (calculate_indicators (fun _ => Ok 1) (fun _ => Ok 1) (Ok 1) (Ok 1)
    (Ok 1) (Ok 1) (Ok 1) (Ok 1) (mk_frame 19 required_cols)) = mk_signals 0 0 1 0 [].
Proof.
  assert (H : (n_rows (mk_frame 19 required_cols) < 20)%nat \/
              missing_cols (mk_frame 19 required_cols) <> []) by (left; cbn; lia).
  split; [exact H | apply calculate_indicators_short; exact H].
Defined.

(** X2: the indicator dictionary is either empty or has exactly the eleven
    keys [sma_20 .. stoch_d] in order, each holding a float or [None]; the
    three MACD entries are all [None] or all floats. *)
Lemma calculate_indicators_shape sma ema rsi ma ms md sk sd df :
  calculate_indicators sma ema rsi ma ms md sk sd df = PDict [] \/
  exists vals, calculate_indicators sma ema rsi ma ms md sk sd df
                 = PDict (combine indicator_keys vals) /\
    length vals = length indicator_keys /\ Forall num_or_none vals /\
    ((nth 6 vals PNone = PNone /\ nth 7 vals PNone = PNone /\ nth 8 vals PNone = PNone) \/
     (exists x y z, nth 6 vals PNone = PNum x /\ nth 7 vals PNone = PNum y /\
                    nth 8 vals PNone = PNum z)).
Proof.
  unfold calculate_indicators.
  destruct (Nat.eqb _ 0); [left; reflexivity|].
  destruct (_ <? 20)%nat; [left; reflexivity|].
  destruct (missing_cols df); [|left; reflexivity].
  right.
  pose proof (macd_values_cases ma ms md) as Hm.
  pose proof (stoch_values_cases sk sd df) as Hs.
  destruct (macd_values ma ms md) as [[a b] c].
  destruct (stoch_values sk sd df) as [k d].
  destruct Hs as [Hk Hd].
  eexists [_; _; _; _; _; _; a; b; c; k; d].
  split; [reflexivity|]. split; [reflexivity|].
  split; [|exact Hm].
  assert (Hnone : num_or_none PNone) by (left; reflexivity).
  assert (Hab : num_or_none a /\ num_or_none b /\ num_or_none c).
  { destruct Hm as [(-> & -> & ->) | (x & y & z & -> & -> & ->)];
      repeat split; unfold num_or_none; eauto. }
  destruct Hab as (Ha & Hb & Hc).
  repeat apply Forall_cons; try apply Forall_nil; auto using try_float_num;
    destruct (_ <=? _)%nat; auto using try_float_num.
Qed.

(** X3: below 50 rows the dictionary holds [None] for both the 50-day and
    the 200-day moving averages, whatever the library returns. *)
Lemma calculate_indicators_long_sma_none sma ema rsi ma ms md sk sd df :
  (n_rows df < 50)%nat ->
  py_get (calculate_indicators sma ema rsi ma ms md sk sd df) "sma_50" PNone = Ok PNone /\
  py_get (calculate_indicators sma ema rsi ma ms md sk sd df) "sma_200" PNone = Ok PNone.
Proof.
  intro H. unfold calculate_indicators.
  destruct (Nat.eqb _ 0); [split; reflexivity|].
  destruct (_ <? 20)%nat; [split; reflexivity|].
  destruct (missing_cols df); [|split; reflexivity].
  destruct (macd_values ma ms md) as [[a b] c].
  destruct (stoch_values sk sd df) as [k d].
  replace (50 <=? n_rows df)%nat with false by (symmetry; apply Nat.leb_gt; lia).
  replace (200 <=? n_rows df)%nat with false by (symmetry; apply Nat.leb_gt; lia).
  split; reflexivity.
Qed.

Lemma calculate_indicators_long_sma_none_witness :
  (n_rows (mk_frame 30 required_cols) < 50)%nat /\
  py_get (calculate_indicators (fun _ => Ok 1) (fun _ => Ok 1) (Ok 1) (Ok 1) (Ok 1) (Ok 1)
    (Ok 1) (Ok 1) (mk_frame 30 required_cols)) "sma_50" PNone = Ok PNone /\
  py_get (calculate_indicators (fun _ => Ok 1) (fun _ => Ok 1) (Ok 1) (Ok 1) (Ok 1) (Ok 1)
    (Ok 1) (Ok 1) (mk_frame 30 required_cols)) "sma_200" PNone = Ok PNone.
Proof.
  split; [cbn; lia | apply calculate_indicators_long_sma_none; cbn; lia].
Defined.

(** X4: the signal summary of any indicator dictionary
    [calculate_indicators] builds counts at most two signals (RSI and MACD:
    the dictionary has no trend, price-vs-SMA, volume or Bollinger keys), so
    its strength is one of -100, -50, 0, 50, 100. *)
Lemma signals_of_indicators sma ema rsi ma ms md sk sd df :
  let s := generate_signals (calculate_indicators sma ema rsi ma ms md sk sd df) in
  (buy_signals s + sell_signals s + neutral_signals s <= 2)%nat /\
  small_strength (signal_strength s) = true.
Proof.
  cbv zeta. cut ((buy_signals (generate_signals (calculate_indicators sma ema rsi ma ms md sk sd df))
     + sell_signals (generate_signals (calculate_indicators sma ema rsi ma ms md sk sd df))
     + neutral_signals (generate_signals (calculate_indicators sma ema rsi ma ms md sk sd df))
     <=? 2)%nat
    && small_strength (signal_strength (generate_signals
         (calculate_indicators sma ema rsi ma ms md sk sd df))) = true).
  { intro H. apply andb_prop in H. destruct H as [H1 H2].
    split; [apply Nat.leb_le; exact H1 | exact H2]. }
  unfold calculate_indicators.
  destruct (Nat.eqb _ 0); [vm_compute; reflexivity|].
  destruct (_ <? 20)%nat; [vm_compute; reflexivity|].
  destruct (missing_cols df); [|vm_compute; reflexivity].
  pose proof (macd_values_cases ma ms md) as Hm.
  destruct (macd_values ma ms md) as [[a b] c].
  destruct (stoch_values sk sd df) as [k d].
  destruct Hm as [(-> & -> & ->) | (x & y & z & -> & -> & ->)];
  destruct rsi as [r|e].
  all: cbv -[Qle_bool].
  all: qsplit; vm_compute; reflexivity.
Qed.

(** X5: [_determine_trend] reports "UPTREND" only when the 20-day average
    is a nonzero number below the last close, and "DOWNTREND" only when it
    is a nonzero number at or above the last close; with no (or a zero)
    20-day average it reports "NEUTRAL" whatever the 50-day average. *)
Lemma determine_trend_sound closes s20 s50 :
  (determine_trend closes s20 s50 = "UPTREND"%string ->
     exists s, s20 = Some s /\ ~ s == 0 /\ s < last closes 0) /\
  (determine_trend closes s20 s50 = "DOWNTREND"%string ->
     exists s, s20 = Some s /\ ~ s == 0 /\ last closes 0 <= s) /\
  ((s20 = None \/ s20 = Some 0) -> determine_trend closes s20 s50 = "NEUTRAL"%string).
Proof.
  unfold determine_trend.
  destruct (rev closes) as [|c t] eqn:Er.
  { repeat split; intro H; try discriminate H; reflexivity. }
  pose proof (rev_cons_last closes t c 0 Er) as Hl. rewrite Hl.
  assert (Hnz : forall x, negb (Qeq_bool x 0) = true -> ~ x == 0).
  { intros x Hx Heq. apply Qeq_bool_iff in Heq. rewrite Heq in Hx. discriminate. }
  assert (Hlt : forall a b, qlt a b = true -> a < b).
  { unfold qlt; intros a b Hab. apply negb_true_iff in Hab.
    apply Qnot_le_lt. intro Hba. apply Qle_bool_iff in Hba. congruence. }
  assert (Hge : forall a b, qlt a b = false -> b <= a).
  { unfold qlt; intros a b Hab. apply negb_false_iff in Hab.
    apply Qle_bool_iff in Hab. exact Hab. }
  repeat split.
  - intro H. destruct s20 as [x|], s50 as [y|];
      try discriminate H;
      repeat (match type of H with context [if ?b then _ else _] =>
                destruct b eqn:?; cbv beta iota in H; try discriminate H end);
      exists x; split; auto; repeat match goal with
      | E : _ && _ = true |- _ => apply andb_prop in E; destruct E
      end; split; eauto.
  - intro H. destruct s20 as [x|], s50 as [y|];
      try discriminate H;
      repeat (match type of H with context [if ?b then _ else _] =>
                destruct b eqn:?; cbv beta iota in H; try discriminate H end);
      exists x; split; auto; repeat match goal with
      | E : _ && _ = true |- _ => apply andb_prop in E; destruct E
      end; split; eauto using Qlt_le_weak.
  - intros [-> | ->]; [reflexivity|]. destruct s50 as [y|]; [|reflexivity].
    rewrite andb_false_r. reflexivity.
Qed.

(** X6: with a positive past close, the [period]-day momentum is positive
    exactly when the last close is above the close [period] days before. *)
Lemma calculate_momentum_sign closes period :
  (period < length closes)%nat ->
  0 < nth (length closes - (period + 1)) closes 0 ->
  (0 < calculate_momentum closes period <->
   nth (length closes - (period + 1)) closes 0 < last closes 0).
Proof.
  intros Hlen Hp. unfold calculate_momentum.
  replace (length closes <? period + 1)%nat with false by (symmetry; apply Nat.ltb_ge; lia).
  cbv zeta.
  set (p := nth _ closes 0) in *. set (c := last closes 0).
  assert (E : (c - p) / p * 100 == (c - p) * (100 / p)) by (field; lra).
  rewrite E. assert (Hq : 0 < 100 / p) by (apply Qlt_shift_div_l; lra).
  split; intro H.
  - destruct (Qlt_le_dec p c) as [|Hle]; [assumption|].
    exfalso. assert ((c - p) * (100 / p) <= 0); [|lra].
    rewrite Qmult_comm. setoid_replace 0 with ((100 / p) * 0) by ring.
    apply Qmult_le_l; lra.
  - apply Qmult_lt_0_compat; lra.
Qed.

Lemma calculate_momentum_sign_witness :
  ((2 < length [10; 11; 12])%nat /\ 0 < nth (length [10; 11; 12] - (2 + 1)) [10; 11; 12] 0) /\
  (0 < calculate_momentum [10; 11; 12] 2 <->
   nth (length [10; 11; 12] - (2 + 1)) [10; 11; 12] 0 < last [10; 11; 12] 0).
Proof.
  assert (H1 : (2 < length [10; 11; 12])%nat) by (cbn; lia).
  assert (H2 : 0 < nth (length [10; 11; 12] - (2 + 1)) [10; 11; 12] 0) by (vm_compute; reflexivity).
  split; [split; assumption | exact (calculate_momentum_sign [10; 11; 12] 2 H1 H2)].
Defined.

(** X7: on bars whose low is at most their high, a window of at least one
    bar over a nonempty history gives a support level and a resistance
    level, and the support is at most the resistance. *)
Lemma support_le_resistance lows highs window :
  Forall2 Qle lows highs -> lows <> [] -> (1 <= window)%nat ->
  exists s r, calculate_support lows window = Some s /\
              calculate_resistance highs window = Some r /\ s <= r.
Proof.
  intros HF Hne Hw.
  pose proof (Forall2_length HF) as Hlen.
  unfold calculate_support, calculate_resistance, tail_window.
  rewrite <- Hlen.
  pose proof (Forall2_skipn _ (length lows - window) _ _ HF) as HS.
  assert (Hpos : (0 < length (skipn (length lows - window) lows))%nat).
  { rewrite length_skipn. destruct lows as [|a l]; [congruence|]. cbn [length]. lia. }
  destruct (skipn (length lows - window) lows) as [|x xs]; [cbn in Hpos; lia|].
  inversion HS as [|? y ? ys Hxy _]; subst. cbn.
  eexists; eexists; split; [reflexivity | split; [reflexivity|]].
  pose proof (fold_min_le xs x). pose proof (fold_max_ge ys y). lra.
Qed.

Lemma support_le_resistance_witness :
  (Forall2 Qle [1; 2; 3] [2; 4; 5] /\ [1; 2; 3] <> ([] : list Q) /\ (1 <= 2)%nat) /\
  exists s r, calculate_support [1; 2; 3] 2 = Some s /\
              calculate_resistance [2; 4; 5] 2 = Some r /\ s <= r.
Proof.
  assert (H1 : Forall2 Qle [1; 2; 3] [2; 4; 5]).
  { repeat constructor; vm_compute; discriminate. }
  assert (H2 : [1; 2; 3] <> ([] : list Q)) by discriminate.
  assert (H3 : (1 <= 2)%nat) by lia.
  split; [auto | exact (support_le_resistance _ _ _ H1 H2 H3)].
Defined.

End IndicatorsFacts.

Module SentimentBreakdownFacts.

Import Sentiment SentimentFacts SentimentBreakdown.

(** Each value falls in exactly one of the five bands. *)
Lemma bands_partition x :
  (Nat.b2n (qlt 0.5 x) + Nat.b2n (qlt 0.1 x && qle x 0.5) +
   Nat.b2n (qle (-0.1) x && qle x 0.1) + Nat.b2n (qle (-0.5) x && qlt x (-0.1)) +
   Nat.b2n (qlt x (-0.5)) = 1)%nat.
Proof.
  unfold qlt, qle.
  destruct (Qle_bool x 0.5) eqn:E1, (Qle_bool x 0.1) eqn:E2,
           (Qle_bool (-0.1) x) eqn:E3, (Qle_bool (-0.5) x) eqn:E4;
    cbn; try reflexivity; exfalso;
    repeat match goal with
    | E : Qle_bool _ _ = true |- _ => apply Qle_bool_iff in E
    | E : Qle_bool _ _ = false |- _ =>
        apply (f_equal negb) in E; cbn in E;
        apply negb_true_iff in E; rewrite <- not_true_iff_false in E;
        rewrite Qle_bool_iff in E; apply Qnot_le_lt in E
    end; lra.
Qed.

Lemma count_if_cons p x xs :
  count_if p (x :: xs) = (Nat.b2n (p x) + count_if p xs)%nat.
Proof. unfold count_if. cbn. destruct (p x); reflexivity. Qed.

Lemma breakdown_sum xs :
  (count_if (fun x => qlt 0.5 x) xs + count_if (fun x => qlt 0.1 x && qle x 0.5) xs +
   count_if (fun x => qle (-0.1) x && qle x 0.1) xs +
   count_if (fun x => qle (-0.5) x && qlt x (-0.1)) xs +
   count_if (fun x => qlt x (-0.5)) xs = length xs)%nat.
Proof.
  induction xs as [|x xs IH]; [reflexivity|].
  rewrite !count_if_cons. pose proof (bands_partition x). cbn [length]. lia.
Qed.

Lemma cat_set_length l k v : (length l <= length (cat_set l k v))%nat.
Proof.
  induction l as [|[k' v'] l IH]; cbn; [lia|].
  destruct (String.eqb k k'); cbn; lia.
Qed.

Lemma fold_categories_length news acc :
  (length (categories (acc_results acc)) <=
   length (categories (acc_results (fold_left news_step news acc))))%nat.
Proof.
  revert acc. induction news as [|[k a] news IH]; intro acc; cbn [fold_left]; [lia|].
  etransitivity; [|apply IH].
  destruct a; cbn; [lia | apply cat_set_length].
Qed.

Lemma fold_all_empty news acc :
  Forall (fun kv => snd kv = []) news -> fold_left news_step news acc = acc.
Proof.
  revert acc. induction news as [|[k a] news IH]; intros acc H; [reflexivity|].
  inversion H as [|? ? Ha Hr]; subst. cbn in Ha. subst a. cbn. apply IH, Hr.
Qed.

Lemma py_sum_bounds lo hi xs :
  Forall (fun x => lo <= x <= hi) xs ->
  inject_Z (Z.of_nat (length xs)) * lo <= py_sum xs <=
  inject_Z (Z.of_nat (length xs)) * hi.
Proof.
  induction xs as [|x xs IH]; intro H.
  - unfold py_sum; cbn [length fold_left]. change (inject_Z (Z.of_nat 0)) with 0. lra.
  - inversion H as [|? ? Hx Hr]; subst. specialize (IH Hr).
    unfold py_sum. cbn [fold_left length]. rewrite py_sum_acc.
    rewrite Nat2Z.inj_succ, <- Z.add_1_r, inject_Z_plus.
    change (inject_Z 1) with 1.
    set (n := inject_Z (Z.of_nat (length xs))) in *. set (t := py_sum xs) in *.
    nra.
Qed.

(** X8: the five breakdown counts add up to one more than the number of
    category entries (at least the three standard ones): the placeholder
    [{}] still held under [sentiment_breakdown] is counted too, always as
    neutral. *)
Lemma breakdown_counts news :
  let b := snd (analyze_with_breakdown news) in
  let r := fst (analyze_with_breakdown news) in
  (very_positive b + positive b + neutral b + negative b + very_negative b
     = S (length (categories r)))%nat /\
  (3 <= length (categories r))%nat /\ (1 <= neutral b)%nat.
Proof.
  cbv zeta. unfold analyze_with_breakdown. cbn [fst snd].
  unfold sentiment_breakdown. cbn [very_positive positive neutral negative very_negative].
  split; [|split].
  - rewrite breakdown_sum. unfold breakdown_inputs.
    rewrite length_app, length_map. cbn [length]. lia.
  - rewrite categories_of_analyze.
    exact (fold_categories_length news (mk_acc results0 0 0)).
  - unfold breakdown_inputs, count_if. rewrite filter_app, length_app.
    vm_compute (length (filter _ [0])). lia.
Qed.

(** X9: a news collection whose lists are all empty leaves the initial
    results unchanged: three empty categories with average 0, overall
    sentiment 0 and no overall label; the breakdown counts four neutral
    entries. *)
Lemma analyze_no_articles news :
  Forall (fun kv => snd kv = []) news ->
  analyze_with_breakdown news = (results0, mk_breakdown 0 0 4 0 0).
Proof.
  intro H. unfold analyze_with_breakdown, analyze_news_collection.
  rewrite fold_all_empty by exact H. vm_compute. reflexivity.
Qed.

Lemma analyze_no_articles_witness :
  Forall (fun kv : string * list Q => snd kv = [])
    [("global_news"%string, []); ("other"%string, [])] /\
  analyze_with_breakdown [("global_news"%string, []); ("other"%string, [])]
    = (results0, mk_breakdown 0 0 4 0 0).
Proof.
  assert (H : Forall (fun kv : string * list Q => snd kv = [])
                [("global_news"%string, []); ("other"%string, [])])
    by (repeat constructor).
  split; [exact H | exact (analyze_no_articles _ H)].
Defined.

(** X10: when there is at least one article and every combined score lies
    in [[lo, hi]], the overall sentiment lies in [[lo, hi]] and the
    prediction score in [[100 lo, 100 hi]]; scores in [[-1, 1]] give a
    prediction score in [[-100, 100]]. *)
Lemma overall_sentiment_bounds lo hi news :
  Forall (fun x => lo <= x <= hi) (all_scores news) -> all_scores news <> [] ->
  lo <= overall_sentiment (analyze_news_collection news) <= hi /\
  100 * lo <= get_sentiment_score_for_prediction (analyze_news_collection news) <= 100 * hi.
Proof.
  intros HF Hne.
  assert (Ho : lo <= overall_sentiment (analyze_news_collection news) <= hi).
  { unfold analyze_news_collection.
    destruct (fold_totals news (mk_acc results0 0 0)) as [Ht Hc].
    cbn [total_sentiment total_count] in Ht, Hc.
    set (acc := fold_left news_step news (mk_acc results0 0 0)) in *.
    rewrite Hc. cbn [Nat.add].
    assert (Hn : (0 < length (all_scores news))%nat)
      by (destruct (all_scores news); [congruence | cbn; lia]).
    replace (0 <? length (all_scores news))%nat with true by (symmetry; apply Nat.ltb_lt; exact Hn).
    cbv zeta. cbn [overall_sentiment]. rewrite Ht, Qplus_0_l.
    pose proof (py_sum_bounds lo hi _ HF) as [Hl Hh].
    assert (Hpos : 0 < inject_Z (Z.of_nat (length (all_scores news)))).
    { change 0 with (inject_Z 0). rewrite <- Zlt_Qlt. lia. }
    split.
    - apply Qle_shift_div_l; [exact Hpos|]. rewrite Qmult_comm. exact Hl.
    - apply Qle_shift_div_r; [exact Hpos|]. rewrite Qmult_comm. exact Hh. }
  split; [exact Ho|]. unfold get_sentiment_score_for_prediction. lra.
Qed.

Lemma overall_sentiment_bounds_witness :
  (Forall (fun x => -1 <= x <= 1) (all_scores [("global_news"%string, [0.5; -0.25])]) /\
   all_scores [("global_news"%string, [0.5; -0.25])] <> []) /\
  (-1 <= overall_sentiment (analyze_news_collection [("global_news"%string, [0.5; -0.25])]) <= 1 /\
   100 * -1 <= get_sentiment_score_for_prediction
     (analyze_news_collection [("global_news"%string, [0.5; -0.25])]) <= 100 * 1).
Proof.
  assert (H1 : Forall (fun x => -1 <= x <= 1) (all_scores [("global_news"%string, [0.5; -0.25])])).
  { cbn. repeat constructor; vm_compute; discriminate. }
  assert (H2 : all_scores [("global_news"%string, [0.5; -0.25])] <> []) by (cbn; discriminate).
  split; [split; assumption | exact (overall_sentiment_bounds _ _ _ H1 H2)].
Defined.

End SentimentBreakdownFacts.

Module FundamentalExtraFacts.

Import Fundamental.

Abbreviation Entry := (string * (Q * Status))%type (only parsing).

(** [m] returns normally from every state whose [roe_pct] satisfies [R1],
    appends [new] to [analysis['metrics']], and leaves [roe_pct] in [R2]. *)
Definition appends (R1 R2 : option Q -> Prop) (m : M FState unit) (new : list Entry) : Prop :=
  forall st, R1 (roe_pct st) ->
  exists st', m st = (Ok tt, st') /\
    metrics (analysis st') = metrics (analysis st) ++ new /\ R2 (roe_pct st').

Definition entry (o : option Q) (name : string) (value : Q -> Q) (status : Q -> Status)
    : list Entry :=
  match o with Some x => [(name, (value x, status x))] | None => [] end.

Lemma appends_seq R1 R2 R3 m1 m2 n1 n2 :
  appends R1 R2 m1 n1 -> appends R2 R3 m2 n2 -> appends R1 R3 (m1 ;;; m2) (n1 ++ n2).
Proof.
  intros H1 H2 st HR.
  destruct (H1 st HR) as (st1 & E1 & M1 & R1').
  destruct (H2 st1 R1') as (st2 & E2 & M2 & R2').
  exists st2. unfold mbind. rewrite E1, E2. rewrite M2, M1, app_assoc. auto.
Qed.

Lemma metric_block_appends R o w points name value status :
  appends R R (metric_block o w points name value status) (entry o name value status).
Proof.
  intros st HR. destruct o as [x|]; cbn.
  - eexists. split; [reflexivity|]. split; [reflexivity | exact HR].
  - exists st. rewrite app_nil_r. auto.
Qed.

Lemma roe_block_appends_some R r :
  appends R (fun rp => rp = Some (r * 100)) (roe_block (Some r))
    [("roe"%string, (r * 100, is_good (qlt 10 (r * 100))))].
Proof.
  intros st _. eexists. split; [reflexivity|]. split; reflexivity.
Qed.

Lemma roe_block_appends_none R : appends R R (roe_block None) [].
Proof. intros st HR. exists st. rewrite app_nil_r. auto. Qed.

Lemma roa_block_appends_some a q :
  appends (fun rp => rp = Some q) (fun _ => True) (roa_block (Some a))
    [("roa"%string, (a * 100, is_good (qlt 3 q)))].
Proof.
  intros st Hq. unfold roa_block, mbind, modify, read_roe_pct. cbn.
  rewrite Hq. eexists. split; [reflexivity|]. split; [reflexivity | exact I].
Qed.

Lemma roa_block_appends_none R : appends R R (roa_block None) [].
Proof. intros st HR. exists st. rewrite app_nil_r. auto. Qed.

(** The metrics of the returned analysis are those the blocks appended. *)
Lemma analyze_metrics d R n :
  appends (fun rp => rp = None) R (fundamental_blocks d) n ->
  metrics (analyze_fundamentals d) = n.
Proof.
  intros H. destruct (H (mk_fstate analysis0 0 0 None) eq_refl) as (st' & E & Hm & _).
  unfold analyze_fundamentals, analyze_fundamentals_body, try_except, mbind.
  cbn. rewrite E. cbn. exact Hm.
Qed.

Ltac metric_chain :=
  repeat match goal with
  | |- appends _ _ (metric_block _ _ _ _ _ _ ;;; _) _ =>
      eapply appends_seq; [apply metric_block_appends|]
  | |- appends _ _ (roe_block None ;;; _) _ =>
      eapply appends_seq; [apply roe_block_appends_none|]
  | |- appends _ _ (roe_block (Some _) ;;; _) _ =>
      eapply appends_seq; [apply roe_block_appends_some|]
  | |- appends _ _ (roa_block None ;;; _) _ =>
      eapply appends_seq; [apply roa_block_appends_none|]
  | |- appends _ _ (roa_block (Some _) ;;; _) _ =>
      eapply appends_seq; [apply roa_block_appends_some|]
  | |- appends _ _ (metric_block _ _ _ _ _ _) _ => apply metric_block_appends
  end.

Lemma map_fst_entry o name value status :
  map fst (entry o name value status) = match o with Some _ => [name] | None => [] end.
Proof. destruct o; reflexivity. Qed.

Definition field_names : list string :=
  ["pe_ratio"; "pb_ratio"; "debt_to_equity"; "roe"; "roa"; "profit_margin";
   "revenue_growth"; "earnings_growth"; "current_ratio"; "quick_ratio"; "peg_ratio";
   "operating_margin"; "dividend_yield"; "beta"]%string.

(** The names of the ratios present, in the order of the blocks. *)
Definition present_names (d : FundamentalData) : list string :=
  flat_map (fun p => match fst p with Some _ => [snd p] | None => [] end)
    (combine (map fst (present_fields d)) field_names).

(** X11: unless ROA comes without ROE, the analysis records one metric entry
    per ratio present, under its name and in the order of the blocks, and
    none for an absent ratio. *)
Lemma analyze_fundamentals_metric_names d :
  roa d = None \/ roe d <> None ->
  map fst (metrics (analyze_fundamentals d)) = present_names d.
Proof.
  intros H.
  destruct (roe d) as [r|] eqn:Er; destruct (roa d) as [a|] eqn:Ea;
    [| | destruct H as [H|H]; congruence |].
  all: erewrite analyze_metrics;
       [| unfold fundamental_blocks; rewrite Er, Ea; metric_chain].
  all: unfold present_names; cbn [present_fields map fst snd combine field_names flat_map].
  all: rewrite Er, Ea, ?map_app, ?map_fst_entry, ?app_nil_r; reflexivity.
Qed.

Lemma analyze_fundamentals_metric_names_witness :
  let d := mk_fdata (Some 20) None (Some 0.5) (Some 0.2) (Some 0.01) None None None
             None None None None (Some 0.02) None in
  (roa d = None \/ roe d <> None) /\
  map fst (metrics (analyze_fundamentals d)) = present_names d.
Proof.
  cbv zeta.
  assert (H : roa (mk_fdata (Some 20) None (Some 0.5) (Some 0.2) (Some 0.01) None None None
                None None None None (Some 0.02) None) = None \/
              roe (mk_fdata (Some 20) None (Some 0.5) (Some 0.2) (Some 0.01) None None None
                None None None None (Some 0.02) None) <> None) by (right; discriminate).
  split; [exact H | exact (analyze_fundamentals_metric_names _ H)].
Defined.

(** X12: with both ROE and ROA present, the ROA entry records the ROA
    percentage with a status decided by the ROE percentage: [GOOD] exactly
    when [roe * 100 > 3], whatever the ROA. *)
Lemma analyze_fundamentals_roa_status d r a :
  roe d = Some r -> roa d = Some a ->
  In ("roa"%string, (a * 100, is_good (qlt 3 (r * 100)))) (metrics (analyze_fundamentals d)).
Proof.
  intros Er Ea.
  erewrite analyze_metrics; [| unfold fundamental_blocks; rewrite Er, Ea; metric_chain].
  rewrite !in_app_iff. right; right; right; right. left. left. reflexivity.
Qed.

Lemma analyze_fundamentals_roa_status_witness :
  let d := mk_fdata None None None (Some 0.2) (Some 0.01) None None None
             None None None None None None in
  (roe d = Some 0.2 /\ roa d = Some 0.01) /\
  In ("roa"%string, (0.01 * 100, is_good (qlt 3 (0.2 * 100)))) (metrics (analyze_fundamentals d)).
Proof.
  cbv zeta. split; [split; reflexivity|].
  apply analyze_fundamentals_roa_status; reflexivity.
Defined.

(** X13: a dividend yield read as a fraction just below [1] scores the full
    5 points and is [GOOD], while a yield from [1] to [1.5] is taken as a
    percentage already and scores 2 points with status [CAUTION]. *)
Lemma dividend_yield_discontinuity dy :
  (0.03 < dy < 1 ->
     yield_points (yield_pct_of dy) == 5 /\ is_good (qlt 1.5 (yield_pct_of dy)) = GOOD) /\
  (1 <= dy <= 1.5 ->
     yield_points (yield_pct_of dy) == 2 /\ is_good (qlt 1.5 (yield_pct_of dy)) = CAUTION).
Proof.
  unfold yield_points, yield_pct_of, qlt.
  split; intros [H1 H2].
  - assert (E1 : Qle_bool 1 dy = false).
    { destruct (Qle_bool 1 dy) eqn:E; [apply Qle_bool_iff in E; lra | reflexivity]. }
    rewrite E1. cbn [negb].
    assert (E2 : Qle_bool (dy * 100) 3 = false).
    { destruct (Qle_bool (dy * 100) 3) eqn:E; [apply Qle_bool_iff in E; lra | reflexivity]. }
    assert (E3 : Qle_bool (dy * 100) 1.5 = false).
    { destruct (Qle_bool (dy * 100) 1.5) eqn:E; [apply Qle_bool_iff in E; lra | reflexivity]. }
    rewrite E2, E3. split; reflexivity.
  - assert (E1 : Qle_bool 1 dy = true) by (apply Qle_bool_iff; lra).
    rewrite E1. cbn [negb].
    assert (E2 : Qle_bool dy 3 = true) by (apply Qle_bool_iff; lra).
    assert (E3 : Qle_bool dy 1.5 = true) by (apply Qle_bool_iff; lra).
    assert (E4 : Qle_bool dy 0 = false).
    { destruct (Qle_bool dy 0) eqn:E; [apply Qle_bool_iff in E; lra | reflexivity]. }
    rewrite E2, E3, E4. split; reflexivity.
Qed.

End FundamentalExtraFacts.

Module PredictorExtraFacts.

Import Predictor PredictorFacts.

Lemma string_app_assoc (a b c : string) : ((a ++ b) ++ c = a ++ (b ++ c))%string.
Proof. induction a as [|ch a IH]; cbn; [reflexivity | rewrite IH; reflexivity]. Qed.

Lemma concat_cons (sep a : string) (m : list string) :
  m <> [] -> String.concat sep (a :: m) = (a ++ sep ++ String.concat sep m)%string.
Proof. destruct m; [congruence | reflexivity]. Qed.

Lemma concat_last (sep x : string) (l : list string) :
  exists pre, String.concat sep (l ++ [x]) = (pre ++ x)%string.
Proof.
  induction l as [|a l [pre IH]].
  - exists EmptyString. reflexivity.
  - exists (a ++ sep ++ pre)%string. rewrite <- app_comm_cons.
    rewrite concat_cons by (destruct l; discriminate).
    rewrite IH, !string_app_assoc. reflexivity.
Qed.

(** X14: at a weighted score of exactly 30 or -30 the action is [BUY] or
    [SELL], yet the reasoning text ends with the phrase of the mixed case,
    whose bounds are strict. *)
Lemma reasoning_at_threshold py_str act ts fa sa ws :
  (ws == 30 \/ ws == -30) ->
  fst (decide ws) <> HOLD /\
  forall s, generate_reasoning py_str act ts fa sa ws = Ok s ->
    exists pre, s = (pre ++ "Mixed signals, suggesting cautious approach.")%string.
Proof.
  intros Hws. split.
  - unfold decide, qle. qcases; try discriminate; lra.
  - intros s H. unfold generate_reasoning in H. peel H.
    assert (Hm : (if qlt 30 ws then "Strong bullish signals across all analyses"%string
                  else if qlt ws (-30) then "Strong bearish signals across all analyses"%string
                  else "Mixed signals, suggesting cautious approach"%string)
                 = "Mixed signals, suggesting cautious approach"%string).
    { unfold qlt. qcases; try reflexivity; lra. }
    rewrite Hm in H. injection H as <-.
    match goal with
    | |- context [String.concat ?sep (?l ++ [?f; ?g; ?m])] =>
        replace (l ++ [f; g; m]) with ((l ++ [f; g]) ++ [m])
          by (rewrite <- app_assoc; reflexivity);
        destruct (concat_last sep m (l ++ [f; g])) as [pre Hpre];
        rewrite Hpre
    end.
    exists pre. rewrite string_app_assoc. reflexivity.
Qed.

Lemma reasoning_at_threshold_witness :
  (30 == 30 \/ 30 == -30) /\
  fst (decide 30) <> HOLD /\
  forall s, generate_reasoning (fun _ => EmptyString) BUY (PDict []) (PStr "STRONG")
              (PDict []) 30 = Ok s ->
    exists pre, s = (pre ++ "Mixed signals, suggesting cautious approach.")%string.
Proof.
  assert (H : 30 == 30 \/ 30 == -30) by (left; reflexivity).
  split; [exact H | exact (reasoning_at_threshold _ _ _ _ _ _ H)].
Defined.

(** [BUY] and [SELL] come with a confidence above 70, [HOLD] with one of
    at most 50. *)
Lemma decide_confidence_side ws :
  qlt 70 (snd (decide ws)) = match fst (decide ws) with HOLD => false | _ => true end.
Proof.
  unfold decide, qle, py_min, py_max, qlt.
  destruct (Qabs_cases ws) as [[H1 H2] | [H1 H2]];
    qcases; cbn [fst snd negb]; try reflexivity; lra.
Qed.

(** X15: the position size of a recommendation depends only on its action
    and risk level: [BUY] and [SELL] always take the "confidence above 70"
    row and [HOLD] never does, so a "Normal position" is suggested exactly
    for a [BUY] or [SELL] of [LOW] risk. *)
Lemma position_size_by_action sqrt py_str sym cp h ta fa sa hist r :
  recommendation_body sqrt py_str sym cp h ta fa sa hist = Ok r ->
  position_size r =
    match action r, risk_level r with
    | HOLD, HIGH => "Very small position (<1% of portfolio)"
    | HOLD, MEDIUM => "Small position (1-2% of portfolio)"
    | HOLD, LOW => "Moderate position (2-3% of portfolio)"
    | _, HIGH => "Small position (1-2% of portfolio)"
    | _, MEDIUM => "Moderate position (2-3% of portfolio)"
    | _, LOW => "Normal position (3-5% of portfolio)"
    end%string.
Proof.
  unfold recommendation_body. intro H. peel H. injection H as <-.
  cbn [position_size action risk_level].
  pose proof (decide_confidence_side x4) as Hc. rewrite Ep in Hc. cbn [fst snd] in Hc.
  unfold suggest_position_size.
  destruct a, (assess_risk _ _ _ _ _); rewrite Hc; reflexivity.
Qed.

Lemma position_size_by_action_witness :
  exists r, recommendation_body (fun q => q) (fun _ => EmptyString) "SCENARIO" (PNum 100)
    (PNum 4) scenario_technical scenario_fundamental scenario_sentiment [] = Ok r /\
    position_size r = "Normal position (3-5% of portfolio)"%string.
Proof.
  eexists. split; [reflexivity |].
  rewrite (position_size_by_action (fun q => q) (fun _ => EmptyString) "SCENARIO"
    (PNum 100) (PNum 4) scenario_technical scenario_fundamental scenario_sentiment []
    _ eq_refl).
  reflexivity.
Defined.

(** X16: with more than 20 closes, a positive price, a non-negative horizon
    and a non-negative square root, a positive weighted score gives a target
    at or above the price and a stop at 97% of it; a weighted score of 0 or
    less gives a target at or below the price and a stop at 103% of it (so
    a neutral score puts the stop above the price). *)
Lemma price_targets_long sqrt cp ws h hist :
  (20 < length hist)%nat -> (forall x, 0 <= sqrt x) -> 0 < cp -> 0 <= h ->
  exists tp sl,
    calculate_price_targets sqrt (PNum cp) ws (PNum h) hist = Ok (tp, sl) /\
    (0 < ws -> cp <= tp /\ sl == cp * 0.97) /\
    (ws <= 0 -> tp <= cp /\ sl == cp * 1.03).
Proof.
  intros Hlen Hsq Hcp Hh.
  set (vol := match returns_std sqrt hist with Some sd => sd * sqrt 252 | None => 0 end).
  assert (Hvol : 0 <= vol).
  { unfold vol, returns_std. destruct (2 <=? _)%nat; [|lra].
    apply Qmult_le_0_compat; apply Hsq. }
  set (pc := ws / 100 * vol * (h / 52) * 2).
  assert (HK : 0 <= vol * (h / 52) * 2).
  { assert (0 <= h / 52) by (apply Qle_shift_div_l; lra).
    apply Qmult_le_0_compat; [|lra]. apply Qmult_le_0_compat; assumption. }
  assert (Epc : pc == ws / 100 * (vol * (h / 52) * 2)) by (unfold pc; ring).
  set (K := vol * (h / 52) * 2) in *. set (a := ws / 100) in *.
  assert (Hpc1 : 0 < ws -> 0 <= pc).
  { intro Hw. assert (0 <= a) by (apply Qle_shift_div_l; lra).
    assert (0 <= a * K) by (apply Qmult_le_0_compat; assumption). lra. }
  assert (Hpc2 : ws <= 0 -> pc <= 0).
  { intro Hw. assert (a <= 0) by (apply Qle_shift_div_r; lra).
    assert (0 <= - a * K) by (apply Qmult_le_0_compat; lra). lra. }
  unfold calculate_price_targets, price_targets_body.
  replace (negb (Nat.eqb (length hist) 0) && (20 <? length hist))%nat with true
    by (symmetry; apply andb_true_intro; split;
        [apply negb_true_iff, Nat.eqb_neq; lia | apply Nat.ltb_lt; exact Hlen]).
  fold vol. cbn [py_div bind as_num py_mul].
  replace (Qeq_bool 52 0) with false by reflexivity. cbn [bind as_num].
  fold pc.
  destruct (qlt 0 ws) eqn:Ew; cbn [bind as_num py_mul];
    eexists; eexists; (split; [reflexivity|]); unfold qlt in Ew.
  - apply negb_true_iff in Ew. split.
    + intros _. assert (Hw : 0 < ws).
      { apply Qnot_le_lt. intro Hle. apply Qle_bool_iff in Hle. congruence. }
      specialize (Hpc1 Hw). split; [|reflexivity].
      assert (0 <= cp * pc) by (apply Qmult_le_0_compat; lra).
      change (ws / 100 * vol * (h / 52) * 2) with pc. lra.
    + intros Hw. exfalso. assert (Hle : ws <= 0) by exact Hw.
      apply Qle_bool_iff in Hle. congruence.
  - apply negb_false_iff, Qle_bool_iff in Ew. split.
    + intro Hw. lra.
    + intros Hw. specialize (Hpc2 Hw). split; [|reflexivity].
      assert (0 <= cp * - pc) by (apply Qmult_le_0_compat; lra).
      change (ws / 100 * vol * (h / 52) * 2) with pc. lra.
Qed.

Lemma price_targets_long_witness :
  ((20 < length (repeat (100 : Q) 21))%nat /\ (forall x : Q, 0 <= (fun _ => 1) x) /\
   0 < 100 /\ 0 <= 4) /\
  exists tp sl,
    calculate_price_targets (fun _ => 1) (PNum 100) 0 (PNum 4) (repeat (100 : Q) 21) = Ok (tp, sl) /\
    (0 < 0 -> 100 <= tp /\ sl == 100 * 0.97) /\
    (0 <= 0 -> tp <= 100 /\ sl == 100 * 1.03).
Proof.
  assert (H1 : (20 < length (repeat (100 : Q) 21))%nat) by (cbn; lia).
  assert (H2 : forall x : Q, 0 <= (fun _ => 1) x) by (intro; cbn; lra).
  assert (H3 : 0 < 100) by lra. assert (H4 : 0 <= 4) by lra.
  split; [auto | exact (price_targets_long (fun _ => 1) 100 0 4 _ H1 H2 H3 H4)].
Defined.

(** X17: with more than 20 closes and a horizon that is not a number, the
    horizon division raises and the handler returns a target at 105% and a
    stop at 97% of the price, whatever the weighted score (also for a
    bearish one). *)
Lemma price_targets_bad_horizon sqrt cp ws h hist :
  (20 < length hist)%nat -> (forall q, h <> PNum q) ->
  calculate_price_targets sqrt (PNum cp) ws h hist = Ok (cp * 1.05, cp * 0.97).
Proof.
  intros Hlen Hh.
  unfold calculate_price_targets, price_targets_body.
  replace (negb (Nat.eqb (length hist) 0) && (20 <? length hist))%nat with true
    by (symmetry; apply andb_true_intro; split;
        [apply negb_true_iff, Nat.eqb_neq; lia | apply Nat.ltb_lt; exact Hlen]).
  destruct h as [| q | s | l | d]; [| exfalso; exact (Hh q eq_refl) | | |]; reflexivity.
Qed.

Lemma price_targets_bad_horizon_witness :
  ((20 < length (repeat (100 : Q) 21))%nat /\ (forall q, PNone <> PNum q)) /\
  calculate_price_targets (fun _ => 1) (PNum 100) (-50) PNone (repeat (100 : Q) 21)
    = Ok (100 * 1.05, 100 * 0.97).
Proof.
  assert (H1 : (20 < length (repeat (100 : Q) 21))%nat) by (cbn; lia).
  assert (H2 : forall q, PNone <> PNum q) by discriminate.
  split; [auto | exact (price_targets_bad_horizon _ _ _ _ _ H1 H2)].
Defined.

End PredictorExtraFacts.

Module PipelineFacts.

Import Predictor Indicators Pipeline.

Lemma calculate_indicators_no_atr sma ema rsi ma ms md sk sd df :
  py_get (calculate_indicators sma ema rsi ma ms md sk sd df) "atr" PNone = Ok PNone.
Proof.
  unfold calculate_indicators.
  destruct (Nat.eqb _ 0); [reflexivity|].
  destruct (_ <? 20)%nat; [reflexivity|].
  destruct (missing_cols df); [|reflexivity].
  destruct (macd_values ma ms md) as [[a b] c].
  destruct (stoch_values sk sd df) as [k d].
  reflexivity.
Qed.

(** X18: in the technical analysis [analyze_stock] builds, the indicator
    dictionary of [calculate_indicators] has no ["atr"] entry, so the
    volatility factor of [_assess_risk] never counts: the risk level comes
    from the fundamental score, the sentiment and the price history alone,
    and [HIGH] needs all three. *)
Lemma assess_risk_ignores_atr sqrt sma ema rsi ma ms md sk sd df sig fa sa hist :
  risk_atr (technical_analysis_of (calculate_indicators sma ema rsi ma ms md sk sd df) sig)
    = Ok false /\
  assess_risk sqrt
    (technical_analysis_of (calculate_indicators sma ema rsi ma ms md sk sd df) sig) fa sa hist
  = match risk_fundamental fa, risk_sentiment sa with
    | Ok b, Ok c => risk_level_of (Nat.b2n b + Nat.b2n c + Nat.b2n (risk_history sqrt hist))
    | _, _ => MEDIUM
    end.
Proof.
  assert (Ha : risk_atr (technical_analysis_of (calculate_indicators sma ema rsi ma ms md sk sd df) sig)
               = Ok false).
  { unfold risk_atr.
    remember (calculate_indicators sma ema rsi ma ms md sk sd df) as ind eqn:Eind.
    replace (py_get (technical_analysis_of ind sig) "indicators" (PDict [])) with (Ok ind)
      by reflexivity.
    cbn [bind]. rewrite Eind, calculate_indicators_no_atr. reflexivity. }
  split; [exact Ha|].
  unfold assess_risk, risk_factor_count. rewrite Ha. cbn [bind Nat.b2n Nat.add].
  destruct (risk_fundamental fa), (risk_sentiment sa); reflexivity.
Qed.

End PipelineFacts.
